(** * NodeJSCompilerMediator: the [Compiler] class of [src/compiler/compiler.ts]

    A shallow embedding of the compile-then-run mediator.  The class keeps one
    mutable [ICompilerConfigs] record, exposes three setters and [execute()],
    and reports through rxjs observers.  The embedding follows the source
    method by method:

    - strings are sequences of code units below 256, so that [String.trim]
      can be written out over its Latin-1 white space;
    - the [variables] field is an ES [Map<string, string>]: an insertion
      ordered association list whose [set] overwrites in place;
    - an [Observable] is the list of notifications it delivers at
      subscription, cut after the first terminal one as rxjs subscribers do;
    - [ProcessWrapper], [CommandBuilder] and [CompilerLoader] live in other
      files of the repository and are section variables here. *)

From Stdlib Require Import String Ascii List ZArith QArith Lia Bool DecimalString.
From Stdlib Require DecimalFacts DecimalPos.
Import ListNotations.
Local Open Scope string_scope.
Local Open Scope list_scope.

(** ** JavaScript strings *)

Module JsString.

(** White space and line terminators recognised by [String.prototype.trim]
    among the code units below 256: TAB, LF, VT, FF, CR, SP and NBSP. *)
Definition is_white (c : ascii) : bool :=
  let n := nat_of_ascii c in
  ((9 <=? n) && (n <=? 13) || (n =? 32) || (n =? 160))%nat.

Fixpoint trimStart (s : string) : string :=
  match s with
  | EmptyString => EmptyString
  | String c rest => if is_white c then trimStart rest else s
  end.

Fixpoint trimEnd (s : string) : string :=
  match s with
  | EmptyString => EmptyString
  | String c rest =>
      match trimEnd rest with
      | EmptyString => if is_white c then EmptyString else String c EmptyString
      | kept => String c kept
      end
  end.

(** [s.trim()] *)
Definition trim (s : string) : string := trimEnd (trimStart s).

(** A string that [trim] leaves alone. *)
Definition trimmed (s : string) : Prop := trim s = s.

(** JavaScript truthiness of an optional string: [undefined] and the empty
    string are falsy. *)
Definition truthy (o : option string) : bool :=
  match o with
  | Some s => negb (s =? "")
  | None => false
  end.

End JsString.

(** ** JavaScript numbers, as far as the mediator looks at them

    Time-outs and variable values are integers in every use the repository
    makes of them; [NaN] is kept because the truthiness test of
    [optionsParser] tells it apart.  [Num z] stands for the JavaScript
    number [z] when [z] is a safe integer ([JsNumber.safe_integer]: every
    such integer is a double); fractions and the infinities have no
    counterpart.  [toString] is the plain decimal rendering, which is what
    JavaScript prints for a safe integer (it switches to exponent notation
    only from 10^21); nothing is stated about [toString] outside the safe
    range. *)

Inductive number : Type :=
| Num (z : Z)
| NaN.

Module JsNumber.

(** [Number.MAX_SAFE_INTEGER], 2^53 - 1. *)
Definition MAX_SAFE_INTEGER : Z := 9007199254740991.

(** [Number.isSafeInteger] on integers. *)
Definition safe_integer (z : Z) : bool := (Z.abs z <=? MAX_SAFE_INTEGER)%Z.

Definition toString (n : number) : string :=
  match n with
  | Num z => NilZero.string_of_int (Z.to_int z)
  | NaN => "NaN"
  end.

(** [undefined], [0] and [NaN] are falsy. *)
Definition truthy (o : option number) : bool :=
  match o with
  | Some (Num z) => negb (z =? 0)%Z
  | Some NaN => false
  | None => false
  end.

End JsNumber.

(** The argument type of [putVariable]: [string | number | boolean]. *)
Inductive VarValue : Type :=
| VString (s : string)
| VNumber (n : number)
| VBoolean (b : bool).

Definition valueToString (v : VarValue) : string :=
  match v with
  | VString s => s
  | VNumber n => JsNumber.toString n
  | VBoolean true => "true"
  | VBoolean false => "false"
  end.

(** ** What [toString()] has to return

    The renderings ECMAScript prescribes, written without reference to
    [valueToString]: a string is its own rendering, a boolean is ["true"] or
    ["false"], NaN is ["NaN"], and a safe integer is its decimal numeral: an
    optional minus sign, then digits without a leading zero, read back here
    digit by digit. *)

Module EcmaToString.

Definition digit_value (ch : ascii) : option Z :=
  let n := Z.of_nat (nat_of_ascii ch) in
  if ((48 <=? n) && (n <=? 57))%Z then Some (n - 48)%Z else None.

(** The number a string of digits denotes, most significant digit first. *)
Fixpoint digits_value (acc : Z) (s : string) : option Z :=
  match s with
  | EmptyString => Some acc
  | String ch rest =>
      match digit_value ch with
      | Some d => digits_value (10 * acc + d) rest
      | None => None
      end
  end.

(** Not empty, and no leading zero except for ["0"] itself. *)
Definition plain_digits (s : string) : bool :=
  match s with
  | EmptyString => false
  | String ch rest => negb (Ascii.eqb ch "0") || (rest =? "")
  end.

Definition value_is (o : option Z) (z : Z) : bool :=
  match o with
  | Some v => (v =? z)%Z
  | None => false
  end.

(** [s] is the decimal numeral of the integer [z]. *)
Definition numeral_of (z : Z) (s : string) : bool :=
  match s with
  | EmptyString => false
  | String ch rest =>
      if Ascii.eqb ch "-"
      then (z <? 0)%Z && plain_digits rest && value_is (digits_value 0 rest) (- z)
      else (0 <=? z)%Z && plain_digits s && value_is (digits_value 0 s) z
  end.

(** [s] is what [value.toString()] returns. *)
Definition renders (value : VarValue) (s : string) : bool :=
  match value with
  | VString t => s =? t
  | VBoolean true => s =? "true"
  | VBoolean false => s =? "false"
  | VNumber NaN => s =? "NaN"
  | VNumber (Num z) => JsNumber.safe_integer z && numeral_of z s
  end.

(** The values the model stands for: every string and boolean, NaN, and
    the safe integers. *)
Definition in_model (value : VarValue) : bool :=
  match value with
  | VNumber (Num z) => JsNumber.safe_integer z
  | _ => true
  end.

End EcmaToString.

(** ** ES [Map<string, string>] *)

Module JsMap.

Definition t : Type := list (string * string).

Definition empty : t := [].

(** [m.set(k, v)]: an existing key keeps its position and takes the new
    value, a new key is appended. *)
Fixpoint set (k v : string) (m : t) : t :=
  match m with
  | [] => [(k, v)]
  | (k', v') :: rest =>
      if k' =? k then (k, v) :: rest else (k', v') :: set k v rest
  end.

Fixpoint get (k : string) (m : t) : option string :=
  match m with
  | [] => None
  | (k', v') :: rest => if k' =? k then Some v' else get k rest
  end.

Definition keys (m : t) : list string := map fst m.

(** Number of entries stored under [k]. *)
Definition entries (k : string) (m : t) : nat :=
  length (filter (fun e => fst e =? k) m).

(** What every ES Map satisfies: no key occurs twice. *)
Definition wf (m : t) : Prop := NoDup (keys m).

End JsMap.

(** ** The configuration record and the toolchain descriptor *)

Record ICompilerConfigs : Type := mkConfigs {
  compilerName : string;
  filePath : option string;
  compileCommand : option string;
  runCommand : option string;
  executionTimeout : option number;
  variables : JsMap.t;
  inputs : list string
}.

(** What [CompilerLoader.getCompiler()] emits (typed [any] in the source);
    [optionsParser] reads these four properties. *)
Record Toolchain : Type := mkToolchain {
  tc_filePath : option string;
  tc_compileCommand : option string;
  tc_runCommand : option string;
  tc_executionTimeout : option number
}.

(** ** Setters *)

(** [executionTimeout(value)] *)
Definition setExecutionTimeout (value : number) (c : ICompilerConfigs)
  : ICompilerConfigs :=
  mkConfigs (compilerName c) (filePath c) (compileCommand c) (runCommand c)
            (Some value) (variables c) (inputs c).

(** [putVariable(name, value)] *)
Definition putVariable (name : string) (value : VarValue) (c : ICompilerConfigs)
  : ICompilerConfigs :=
  if (0 <? String.length (JsString.trim name))%nat then
    mkConfigs (compilerName c) (filePath c) (compileCommand c) (runCommand c)
              (executionTimeout c)
              (JsMap.set (JsString.trim name) (valueToString value) (variables c))
              (inputs c)
  else c.

(** [onInputRequested(...inputs)] *)
Definition onInputRequested (lines : list string) (c : ICompilerConfigs)
  : ICompilerConfigs :=
  mkConfigs (compilerName c) (filePath c) (compileCommand c) (runCommand c)
            (executionTimeout c) (variables c) lines.

(** A sequence of [putVariable] calls, first call first. *)
Definition putVariables (calls : list (string * VarValue)) (c : ICompilerConfigs)
  : ICompilerConfigs :=
  fold_left (fun acc call => putVariable (fst call) (snd call) acc) calls c.

(** ** Descriptor resolution *)

(** [configureDefaultOptions()] *)
Definition configureDefaultOptions (c : ICompilerConfigs) : ICompilerConfigs :=
  mkConfigs (compilerName c)
            (if JsString.truthy (filePath c) then filePath c else Some "./")
            (compileCommand c) (runCommand c) (executionTimeout c)
            (variables c) (inputs c).

(** [optionsParser(compiler)] *)
Definition optionsParser (compiler : Toolchain) (c : ICompilerConfigs)
  : ICompilerConfigs :=
  mkConfigs (compilerName c)
            (tc_filePath compiler)
            (tc_compileCommand compiler)
            (tc_runCommand compiler)
            (if JsNumber.truthy (executionTimeout c)
             then executionTimeout c
             else tc_executionTimeout compiler)
            (variables c) (inputs c).

(** ** Observables, errors and the outside world *)

Inductive Error : Type :=
| CompilationError (message : string)
| ExternalError (description : string).

(** A notification an observer receives. *)
Inductive Notification (A : Type) : Type :=
| OnNext (value : A)
| OnError (e : Error)
| OnComplete.

Arguments OnNext {A} value.
Arguments OnError {A} e.
Arguments OnComplete {A}.

(** The observer handed to [Observable.create] is an rxjs subscriber: it
    forwards notifications up to and including the first [error] or
    [complete] and drops whatever the producer sends afterwards. *)
Fixpoint deliver {A : Type} (sent : list (Notification A)) : list (Notification A) :=
  match sent with
  | [] => []
  | OnNext a :: rest => OnNext a :: deliver rest
  | terminal :: _ => [terminal]
  end.

(** [ICompilerOutput]; [took] is a quotient of integers, kept exact. *)
Record ICompilerOutput : Type := mkOutput {
  returnCode : option Z;
  data : option string;
  took : option Q
}.

(** One [new ProcessWrapper(command, options)] together with the
    [writeInput] call that may follow it ([None]: not called). *)
Record Spawn : Type := mkSpawn {
  sp_command : string;
  sp_currentDirectory : option string;
  sp_executionTimeout : option number;
  sp_writeInput : option (list string)
}.

Inductive Chunk : Type :=
| Stdout (text : string)
| Stderr (text : string).

Definition chunk_text (c : Chunk) : string :=
  match c with Stdout s => s | Stderr s => s end.

(** The [onFinish] event: the exit code, and what [process.hrtime(started)]
    answers at that moment, [[seconds, nanoseconds]]. *)
Record Finish : Type := mkFinish {
  exitCode : Z;
  hr_seconds : Z;
  hr_nanoseconds : Z
}.

(** What a subprocess does: the chunks [onOutput]/[onError] deliver, in
    arrival order, then its [onFinish] event, if it ever comes. *)
Record Behaviour : Type := mkBehaviour {
  chunks : list Chunk;
  finish : option Finish
}.

(** Wall-clock time between the two [hrtime] readings, in milliseconds. *)
Definition elapsed_ms (f : Finish) : Q :=
  (inject_Z (hr_seconds f) * 1000 + inject_Z (hr_nanoseconds f) / 1000000)%Q.

(** Effects that leave the class: subprocesses started, in order, and errors
    that reached a subscriber without an error callback.  rxjs does not pass
    such an error to any observer: it is thrown to the host as an uncaught
    exception.  The toolchain lookup answers asynchronously, so that throw
    happens in a callback of its own and never inside the subscription of
    [execute()]. *)
Record World : Type := mkWorld {
  spawned : list Spawn;
  uncaught : list Error
}.

Definition initial_world : World := mkWorld [] [].

Definition record_spawn (sp : Spawn) (w : World) : World :=
  mkWorld (spawned w ++ [sp]) (uncaught w).

Definition report_uncaught (e : Error) (w : World) : World :=
  mkWorld (spawned w) (uncaught w ++ [e]).

(** [source.subscribe(next, error?)]: the callbacks send notifications on to
    an outer observer and may act on the world.  None of the subscriptions
    in the class passes a [complete] callback. *)
Definition subscribe {A B : Type}
    (next : A -> World -> list (Notification B) * World)
    (error : option (Error -> list (Notification B)))
  : list (Notification A) -> World -> list (Notification B) * World :=
  fix go (source : list (Notification A)) (w : World) :=
    match source with
    | [] => ([], w)
    | OnNext a :: rest =>
        let (sent, w1) := next a w in
        let (more, w2) := go rest w1 in
        (sent ++ more, w2)
    | OnError e :: _ =>
        match error with
        | Some handler => (handler e, w)
        | None => ([], report_uncaught e w)
        end
    | OnComplete :: _ => ([], w)
    end.

(** Which arm of the [if]/[else if] chain of [compileAndRun] is taken. *)
Inductive Branch : Type :=
| RunPhase
| MissingRunCommand
| CompileResultPassthrough
| FailedToCompileGuard.

Definition SUCCESS_CODE : Z := 0.

Definition code_is (code : Z) (o : option Z) : bool :=
  match o with
  | Some rc => (rc =? code)%Z
  | None => false
  end.

Definition optString (o : option string) : string :=
  match o with Some s => s | None => "" end.

Module Messages.
Definition runCommandNotFound : Error := CompilationError "runCommand not found.".
Definition failedToCompile : Error := CompilationError "Failed to compile.".
End Messages.

Section Mediator.

(** [CommandBuilder] (src/compiler/command-builder.ts). *)
Variable CommandBuilder : Type.
Variable newCommandBuilder : string -> CommandBuilder.
Variable cb_putVariables : JsMap.t -> CommandBuilder -> CommandBuilder.
Variable cb_buildCommand : CommandBuilder -> string.

(** [ProcessWrapper] (src/runtime/process-wrapper.ts) and the operating
    system behind it: what the n-th subprocess of a session does.  The
    collaborators are taken as they answer when they answer normally: the
    constructor and [writeInput] return, the command builder returns a
    string, and the three streams of a subprocess deliver chunks and at most
    one exit code.  Exceptions thrown by a collaborator and error
    notifications on those streams are outside the model, so nothing below
    says which errors [execute()] can or cannot deliver beyond the ones the
    class raises itself. *)
Variable os : nat -> Spawn -> Behaviour.

(** [new CompilerLoader(name).getCompiler()], a lookup that answers once. *)
Variable getCompiler : string -> Error + Toolchain.

(** [configureCommand(command)]; a Map object is truthy, so both calls of
    [putVariables] happen. *)
Definition configureCommand (c : ICompilerConfigs) (command : string) : string :=
  let commandBuilder := newCommandBuilder command in
  let commandBuilder := cb_putVariables (variables c) commandBuilder in
  let commandBuilder := cb_putVariables (variables c) commandBuilder in
  cb_buildCommand commandBuilder.

(** The value [onFinish] makes [run] emit. *)
Definition finished_output (b : Behaviour) (f : Finish) : ICompilerOutput :=
  mkOutput (Some (exitCode f))
           (Some (String.concat "" (map chunk_text (chunks b))))
           (Some (inject_Z (hr_nanoseconds f) / 1000000)%Q).

(** The first statement of [run]: the command to execute, and the error
    sent at once when [runCommand] is falsy.  Nothing returns after that
    [observer.error], so the method goes on either way. *)
Definition run_command (c : ICompilerConfigs)
  : string * list (Notification ICompilerOutput) :=
  if JsString.truthy (runCommand c)
  then (configureCommand c (optString (runCommand c)), [])
  else ("", [OnError Messages.runCommandNotFound]).

(** [new ProcessWrapper(command, {currentDirectory, executionTimeout})],
    then [writeInput] when there are input lines. *)
Definition run_process (c : ICompilerConfigs) (ins : list string) : Spawn :=
  mkSpawn (fst (run_command c)) (filePath c) (executionTimeout c)
          (if (0 <? length ins)%nat then Some ins else None).

(** [run(...inputs)] *)
Definition run (c : ICompilerConfigs) (ins : list string) (w : World)
  : list (Notification ICompilerOutput) * World :=
  let proc := run_process c ins in
  let b := os (length (spawned w)) proc in
  let late :=
    match finish b with
    | Some f => [OnNext (finished_output b f); OnComplete]
    | None => []
    end in
  (deliver (snd (run_command c) ++ late), record_spawn proc w).

(** The callbacks [(output) => { observer.next(output); observer.complete() }]
    and [(error) => { observer.error(error) }] used by [compile] and by the
    run phase. *)
Definition forward_next (o : ICompilerOutput) (w : World)
  : list (Notification ICompilerOutput) * World :=
  ([OnNext o; OnComplete], w).

Definition forward_error (e : Error) : list (Notification ICompilerOutput) :=
  [OnError e].

(** [compile()] *)
Definition compile (c : ICompilerConfigs) (w : World)
  : list (Notification ICompilerOutput) * World :=
  if JsString.truthy (compileCommand c) then
    let (source, w1) := run c [optString (compileCommand c)] w in
    let (sent, w2) := subscribe forward_next (Some forward_error) source w1 in
    (deliver sent, w2)
  else
    (deliver [OnNext (mkOutput (Some SUCCESS_CODE) None None); OnComplete], w).

(** The conditions of [compileAndRun], in source order. *)
Definition dispatch (compileOutput : ICompilerOutput) (c : ICompilerConfigs) : Branch :=
  if code_is SUCCESS_CODE (returnCode compileOutput) && JsString.truthy (runCommand c)
  then RunPhase
  else if negb (JsString.truthy (runCommand c)) then MissingRunCommand
  else if negb (code_is 0 (returnCode compileOutput)) then CompileResultPassthrough
  else FailedToCompileGuard.

(** The [next] callback [compileAndRun] gives to [compile()]. *)
Definition on_compile_output (c : ICompilerConfigs) (compileOutput : ICompilerOutput)
    (w : World) : list (Notification ICompilerOutput) * World :=
  match dispatch compileOutput c with
  | RunPhase =>
      let (source, w1) := run c (inputs c) w in
      subscribe forward_next (Some forward_error) source w1
  | MissingRunCommand => ([OnError Messages.runCommandNotFound], w)
  | CompileResultPassthrough => ([OnNext compileOutput; OnComplete], w)
  | FailedToCompileGuard => ([OnError Messages.failedToCompile], w)
  end.

(** [compileAndRun(observer)]: what it sends to [observer].  The
    subscription to [compile()] has no error callback. *)
Definition compileAndRun (c : ICompilerConfigs) (w : World)
  : list (Notification ICompilerOutput) * World :=
  let (source, w1) := compile c w in
  subscribe (on_compile_output c) None source w1.

(** [execute()], subscribed once: the notifications its observer receives,
    the configuration as the call leaves it, and the world. *)
Definition execute (c : ICompilerConfigs) (w : World)
  : list (Notification ICompilerOutput) * ICompilerConfigs * World :=
  let c1 := configureDefaultOptions c in
  match getCompiler (compilerName c1) with
  | inr compiler =>
      let c2 := optionsParser compiler c1 in
      let (sent, w1) := compileAndRun c2 w in
      (deliver sent, c2, w1)
  | inl e => (deliver [OnError e], c1, w)
  end.

End Mediator.

(** ** A concrete session

    Instances of the three collaborators, to run the mediator on. *)

Module Session.

(** Modelled from the spec: [CommandBuilder] (src/compiler/command-builder.ts
    is not part of the sources at hand).  Section 4.1: the template is
    scanned for [{name}] placeholders; a name found in the variables is
    replaced by its value, any other placeholder is left as written. *)
Record Builder : Type := mkBuilder {
  template : string;
  bound : JsMap.t
}.

Definition newBuilder (command : string) : Builder := mkBuilder command JsMap.empty.

Definition builderPut (vars : JsMap.t) (b : Builder) : Builder :=
  mkBuilder (template b)
            (fold_left (fun acc e => JsMap.set (fst e) (snd e) acc) vars (bound b)).

Fixpoint substitute (vars : JsMap.t) (pending : option string) (s : string) : string :=
  match s with
  | EmptyString =>
      match pending with
      | Some name => String "{" name
      | None => EmptyString
      end
  | String ch rest =>
      match pending with
      | None =>
          if Ascii.eqb ch "{" then substitute vars (Some EmptyString) rest
          else String ch (substitute vars None rest)
      | Some name =>
          if Ascii.eqb ch "}" then
            match JsMap.get name vars with
            | Some v => String.append v (substitute vars None rest)
            | None =>
                String "{" (String.append name
                              (String "}" (substitute vars None rest)))
            end
          else if Ascii.eqb ch "{" then
            String "{" (String.append name (substitute vars (Some EmptyString) rest))
          else substitute vars (Some (String.append name (String ch EmptyString))) rest
      end
  end.

Definition builderBuild (b : Builder) : string :=
  substitute (bound b) None (template b).

(** A toolchain registry with a compiled language, an interpreted one and
    one whose descriptor lacks the run command. *)
Definition registry (name : string) : Error + Toolchain :=
  if name =? "c" then
    inr (mkToolchain (Some "/tmp/job") (Some "cc {file} -o out") (Some "./out")
                     (Some (Num 3000)))
  else if name =? "py" then
    inr (mkToolchain (Some "/tmp/job") None (Some "interp {file}") (Some (Num 3000)))
  else if name =? "broken" then
    inr (mkToolchain (Some "/tmp/job") (Some "cc {file} -o out") None
                     (Some (Num 3000)))
  else inl (ExternalError "unknown compiler").

(** An operating system whose first subprocess writes a diagnostic and
    exits with 1 after 2.5 s, and whose later ones print 42 and exit with
    0 after 1.5 ms. *)
Definition machine (n : nat) (p : Spawn) : Behaviour :=
  match n with
  | O => mkBehaviour [Stderr "syntax "; Stdout "error"]
                     (Some (mkFinish 1 2 500000000))
  | S _ => mkBehaviour [Stdout "42"] (Some (mkFinish 0 0 1500000))
  end.

Definition user (language : string) : ICompilerConfigs :=
  mkConfigs language None None None None JsMap.empty [].

(** An operating system on which every subprocess prints a prompt and never
    finishes. *)
Definition stalled (n : nat) (p : Spawn) : Behaviour :=
  mkBehaviour [Stdout "waiting"] None.

(** An operating system on which every subprocess succeeds: it echoes on
    both streams and exits with 0 after 1 s and 2 ms. *)
Definition healthy (n : nat) (p : Spawn) : Behaviour :=
  mkBehaviour [Stdout "out:"; Stderr "warn:"; Stdout (sp_command p)]
              (Some (mkFinish 0 1 2000000)).

Definition configure := configureCommand Builder newBuilder builderPut builderBuild.
Definition run := run Builder newBuilder builderPut builderBuild machine.
Definition compile := compile Builder newBuilder builderPut builderBuild machine.
Definition compileAndRun :=
  compileAndRun Builder newBuilder builderPut builderBuild machine.
Definition execute :=
  execute Builder newBuilder builderPut builderBuild machine registry.

End Session.

(** * Properties *)

(** ** Trimming *)

Module JsStringFacts.
Import JsString.

Lemma trimEnd_keeps_head (c : ascii) (s : string) :
  is_white c = false -> exists kept, trimEnd (String c s) = String c kept.
Proof.
  intros Hc. simpl. destruct (trimEnd s) as [|d kept].
  - rewrite Hc. now exists EmptyString.
  - now exists (String d kept).
Qed.

Lemma trimStart_head (s : string) :
  trimStart s = EmptyString \/
  exists c rest, trimStart s = String c rest /\ is_white c = false.
Proof.
  induction s as [|c rest IH]; simpl.
  - now left.
  - destruct (is_white c) eqn:Hc; [exact IH|].
    right. now exists c, rest.
Qed.

Lemma trimEnd_idempotent (s : string) : trimEnd (trimEnd s) = trimEnd s.
Proof.
  induction s as [|c rest IH]; simpl; [reflexivity|].
  destruct (trimEnd rest) as [|d kept] eqn:Hrest.
  - destruct (is_white c) eqn:Hc; simpl; [reflexivity|now rewrite Hc].
  - change (trimEnd (String c (String d kept))) with
      (match trimEnd (String d kept) with
       | EmptyString => if is_white c then EmptyString else String c EmptyString
       | String _ _ as k => String c k
       end).
    now rewrite IH.
Qed.

Lemma trim_start_stable (s : string) : trimStart (trim s) = trim s.
Proof.
  unfold trim. destruct (trimStart_head s) as [-> | (c & rest & -> & Hc)].
  - reflexivity.
  - destruct (trimEnd_keeps_head c rest Hc) as [kept ->]. simpl. now rewrite Hc.
Qed.

Lemma trim_idempotent (s : string) : trim (trim s) = trim s.
Proof.
  unfold trim at 1. rewrite trim_start_stable. unfold trim.
  apply trimEnd_idempotent.
Qed.

Lemma length_pos_nonempty (s : string) :
  (0 <? String.length s)%nat = true <-> s <> EmptyString.
Proof.
  destruct s; unfold Nat.ltb; simpl; split; intros H;
    solve [congruence | reflexivity | discriminate].
Qed.

Lemma length_zero_empty (s : string) :
  (0 <? String.length s)%nat = false <-> s = EmptyString.
Proof.
  destruct s; unfold Nat.ltb; simpl; split; intros H;
    solve [congruence | reflexivity | discriminate].
Qed.

End JsStringFacts.

(** ** The variables map *)

Module JsMapFacts.
Import JsMap.

Lemma get_set_same (k v : string) (m : t) : get k (set k v m) = Some v.
Proof.
  induction m as [|[k' v'] rest IH]; simpl.
  - now rewrite String.eqb_refl.
  - destruct (k' =? k) eqn:E; simpl.
    + now rewrite String.eqb_refl.
    + now rewrite E.
Qed.

Lemma get_set_other (k k0 v : string) (m : t) :
  k0 <> k -> get k0 (set k v m) = get k0 m.
Proof.
  intros Hne. induction m as [|[k' v'] rest IH]; simpl.
  - apply String.eqb_neq in Hne. rewrite String.eqb_sym. now rewrite Hne.
  - destruct (k' =? k) eqn:E; simpl.
    + apply String.eqb_eq in E. subst k'.
      assert ((k =? k0) = false) as -> by (apply String.eqb_neq; congruence).
      reflexivity.
    + now rewrite IH.
Qed.

Lemma In_keys_set (k k0 v : string) (m : t) :
  In k0 (keys (set k v m)) <-> k0 = k \/ In k0 (keys m).
Proof.
  unfold keys. induction m as [|[k' v'] rest IH]; simpl.
  - intuition congruence.
  - destruct (k' =? k) eqn:E; simpl.
    + apply String.eqb_eq in E. subst k'. intuition congruence.
    + rewrite IH. intuition congruence.
Qed.

Lemma wf_set (k v : string) (m : t) : wf m -> wf (set k v m).
Proof.
  unfold wf. induction m as [|[k' v'] rest IH]; simpl; intros Hm.
  - constructor; [now intros []|constructor].
  - inversion Hm as [|? ? Hnot Hrest]; subst.
    destruct (k' =? k) eqn:E; simpl.
    + apply String.eqb_eq in E. subst k'. now constructor.
    + constructor; [|now apply IH].
      intros Hin. apply In_keys_set in Hin. destruct Hin as [->|Hin].
      * now rewrite String.eqb_refl in E.
      * now apply Hnot.
Qed.

Lemma entries_absent (k : string) (m : t) : ~ In k (keys m) -> entries k m = 0%nat.
Proof.
  unfold entries, keys. induction m as [|[k' v'] rest IH]; simpl; intros Hnot.
  - reflexivity.
  - destruct (k' =? k) eqn:E.
    + apply String.eqb_eq in E. subst k'. exfalso. apply Hnot. now left.
    + apply IH. intros Hin. apply Hnot. now right.
Qed.

Lemma entries_set_same (k v : string) (m : t) :
  wf m -> entries k (set k v m) = 1%nat.
Proof.
  unfold wf. induction m as [|[k' v'] rest IH]; simpl; intros Hm.
  - unfold entries. simpl. now rewrite String.eqb_refl.
  - inversion Hm as [|? ? Hnot Hrest]; subst.
    destruct (k' =? k) eqn:E.
    + apply String.eqb_eq in E. subst k'.
      unfold entries. simpl. rewrite String.eqb_refl. simpl.
      f_equal. now apply entries_absent.
    + unfold entries. simpl. rewrite E. now apply IH.
Qed.

Lemma Forall_keys_set (P : string -> Prop) (k v : string) (m : t) :
  P k -> Forall P (keys m) -> Forall P (keys (set k v m)).
Proof.
  intros Hk Hm. apply Forall_forall. intros k0 Hin.
  apply In_keys_set in Hin. destruct Hin as [->|Hin]; [exact Hk|].
  rewrite Forall_forall in Hm. now apply Hm.
Qed.

End JsMapFacts.

(** A key as [putVariable] writes it: trimmed and not empty. *)
Definition key_ok (k : string) : Prop := JsString.trimmed k /\ k <> EmptyString.

(** The map is a genuine ES Map and holds only such keys. *)
Definition variables_ok (c : ICompilerConfigs) : Prop :=
  JsMap.wf (variables c) /\ Forall key_ok (JsMap.keys (variables c)).

Lemma putVariable_empty_name (name : string) (value : VarValue) (c : ICompilerConfigs) :
  JsString.trim name = EmptyString -> putVariable name value c = c.
Proof.
  intros H. unfold putVariable. now rewrite H.
Qed.

Lemma putVariable_variables (name : string) (value : VarValue) (c : ICompilerConfigs) :
  JsString.trim name <> EmptyString ->
  variables (putVariable name value c) =
  JsMap.set (JsString.trim name) (valueToString value) (variables c).
Proof.
  intros H. unfold putVariable.
  apply JsStringFacts.length_pos_nonempty in H. now rewrite H.
Qed.

Lemma putVariable_preserves_ok (name : string) (value : VarValue) (c : ICompilerConfigs) :
  variables_ok c -> variables_ok (putVariable name value c).
Proof.
  intros [Hwf Hkeys].
  destruct (string_dec (JsString.trim name) EmptyString) as [He|Hne].
  - now rewrite putVariable_empty_name.
  - unfold variables_ok. rewrite putVariable_variables by assumption. split.
    + now apply JsMapFacts.wf_set.
    + apply JsMapFacts.Forall_keys_set; [|assumption].
      split; [apply JsStringFacts.trim_idempotent|assumption].
Qed.

Lemma putVariables_preserves_ok (calls : list (string * VarValue)) (c : ICompilerConfigs) :
  variables_ok c -> variables_ok (putVariables calls c).
Proof.
  unfold putVariables. revert c.
  induction calls as [|[name value] rest IH]; simpl; intros c Hc.
  - exact Hc.
  - apply IH. now apply putVariable_preserves_ok.
Qed.

(** ** Stringification *)

Module EcmaToStringFacts.
Import EcmaToString.

(** The number a decimal digit sequence denotes. *)
Fixpoint uint_value (acc : Z) (d : Decimal.uint) : Z :=
  match d with
  | Decimal.Nil => acc
  | Decimal.D0 l => uint_value (10 * acc + 0) l
  | Decimal.D1 l => uint_value (10 * acc + 1) l
  | Decimal.D2 l => uint_value (10 * acc + 2) l
  | Decimal.D3 l => uint_value (10 * acc + 3) l
  | Decimal.D4 l => uint_value (10 * acc + 4) l
  | Decimal.D5 l => uint_value (10 * acc + 5) l
  | Decimal.D6 l => uint_value (10 * acc + 6) l
  | Decimal.D7 l => uint_value (10 * acc + 7) l
  | Decimal.D8 l => uint_value (10 * acc + 8) l
  | Decimal.D9 l => uint_value (10 * acc + 9) l
  end.

Lemma digits_value_uint (d : Decimal.uint) (acc : Z) :
  digits_value acc (NilEmpty.string_of_uint d) = Some (uint_value acc d).
Proof.
  revert acc. induction d; intros acc; simpl; try reflexivity; apply IHd.
Qed.

Lemma of_uint_acc_value (d : Decimal.uint) (acc : positive) :
  Zpos (Pos.of_uint_acc d acc) = uint_value (Zpos acc) d.
Proof.
  revert acc. induction d; intros acc; cbn [Pos.of_uint_acc uint_value];
    try reflexivity; rewrite IHd; f_equal; lia.
Qed.

Lemma of_uint_value (d : Decimal.uint) : Z.of_N (Pos.of_uint d) = uint_value 0 d.
Proof.
  induction d; cbn [Pos.of_uint uint_value Z.of_N]; try reflexivity; try exact IHd;
    rewrite of_uint_acc_value; reflexivity.
Qed.

(** The digits of a positive number start with a digit other than 0. *)
Lemma to_uint_head (p : positive) :
  plain_digits (NilEmpty.string_of_uint (Pos.to_uint p)) = true /\
  (forall rest, NilEmpty.string_of_uint (Pos.to_uint p) <> String "-" rest) /\
  NilEmpty.string_of_uint (Pos.to_uint p) <> EmptyString.
Proof.
  pose proof (DecimalPos.Unsigned.to_of (Pos.to_uint p)) as Hnorm.
  rewrite DecimalPos.Unsigned.of_to in Hnorm. simpl in Hnorm.
  pose proof (DecimalPos.Unsigned.to_uint_nonzero p) as Hnz.
  pose proof (DecimalPos.Unsigned.to_uint_nonnil p) as Hnn.
  destruct (Pos.to_uint p) as [|l|l|l|l|l|l|l|l|l|l]; try contradiction;
    simpl; repeat split; try discriminate.
  exfalso. rewrite DecimalFacts.unorm_D0 in Hnorm. unfold Decimal.unorm in Hnorm.
  destruct (Decimal.nzhead l) eqn:Hl; try discriminate.
  - now apply Hnz.
  - injection Hnorm as Heq. subst l. now apply DecimalFacts.nzhead_nonzero in Hl.
Qed.

Lemma string_of_uint_positive (p : positive) :
  NilZero.string_of_uint (Pos.to_uint p) = NilEmpty.string_of_uint (Pos.to_uint p).
Proof.
  pose proof (DecimalPos.Unsigned.to_uint_nonnil p). now destruct (Pos.to_uint p).
Qed.

Lemma digits_value_positive (p : positive) :
  digits_value 0 (NilEmpty.string_of_uint (Pos.to_uint p)) = Some (Zpos p).
Proof.
  rewrite digits_value_uint, <- of_uint_value.
  now rewrite DecimalPos.Unsigned.of_to.
Qed.

(** What [toString] prints for an integer is that integer's numeral. *)
Lemma numeral_of_toString (z : Z) : numeral_of z (JsNumber.toString (Num z)) = true.
Proof.
  unfold JsNumber.toString. destruct z as [|p|p]; [reflexivity| |].
  - cbn [Z.to_int NilZero.string_of_int]. rewrite string_of_uint_positive.
    destruct (to_uint_head p) as (Hplain & Hminus & Hne).
    pose proof (digits_value_positive p) as Hval.
    unfold numeral_of.
    destruct (NilEmpty.string_of_uint (Pos.to_uint p)) as [|ch rest] eqn:Hs;
      [contradiction|].
    destruct (Ascii.eqb_spec ch "-") as [->|_]; [now contradiction (Hminus rest)|].
    rewrite Hplain, Hval. simpl. apply Pos.eqb_refl.
  - cbn [Z.to_int NilZero.string_of_int]. rewrite string_of_uint_positive.
    destruct (to_uint_head p) as (Hplain & _ & _).
    pose proof (digits_value_positive p) as Hval.
    unfold numeral_of. rewrite Ascii.eqb_refl, Hplain, Hval.
    simpl. apply Pos.eqb_refl.
Qed.

(** On the values the model stands for, [valueToString] returns what
    [toString()] has to return. *)
Lemma valueToString_renders (value : VarValue) :
  in_model value = true -> renders value (valueToString value) = true.
Proof.
  destruct value as [t|[z|]|[|]]; simpl; intros Hmodel;
    try reflexivity; try apply String.eqb_refl.
  rewrite Hmodel. apply numeral_of_toString.
Qed.

End EcmaToStringFacts.

(** ** [putVariable] *)

(** C9: [putVariable] leaves the configuration as it is when the trimmed name
    is empty; otherwise, for every value the model stands for (strings,
    booleans, NaN and safe integers), it stores under the trimmed name the
    string [value.toString()] returns and touches nothing else.  In
    particular [putVariable("  ", "x")] changes nothing and
    [putVariable(" n ", 5)] stores ["5"] under ["n"]. *)
Theorem putVariable_stores_trimmed_name
    (name : string) (value : VarValue) (c : ICompilerConfigs) :
  (JsString.trim name = EmptyString -> putVariable name value c = c) /\
  (JsString.trim name <> EmptyString ->
   EcmaToString.in_model value = true ->
   exists s : string,
     EcmaToString.renders value s = true /\
     putVariable name value c =
       mkConfigs (compilerName c) (filePath c) (compileCommand c) (runCommand c)
                 (executionTimeout c)
                 (JsMap.set (JsString.trim name) s (variables c))
                 (inputs c) /\
     JsMap.get (JsString.trim name) (variables (putVariable name value c)) = Some s /\
     (forall k, k <> JsString.trim name ->
        JsMap.get k (variables (putVariable name value c)) = JsMap.get k (variables c))) /\
  putVariable "  " (VString "x") c = c /\
  JsMap.get "n" (variables (putVariable " n " (VNumber (Num 5)) c)) = Some "5".
Proof.
  split; [apply putVariable_empty_name|]. split.
  - intros Hne Hmodel. exists (valueToString value).
    split; [now apply EcmaToStringFacts.valueToString_renders|].
    rewrite (putVariable_variables name value c Hne).
    repeat split.
    + unfold putVariable.
      apply JsStringFacts.length_pos_nonempty in Hne. now rewrite Hne.
    + apply JsMapFacts.get_set_same.
    + intros k Hk. now apply JsMapFacts.get_set_other.
  - split; [reflexivity|].
    rewrite putVariable_variables by discriminate.
    apply (JsMapFacts.get_set_same "n" "5").
Qed.

Lemma putVariable_stores_trimmed_name_witness :
  JsString.trim "  " = EmptyString /\
  putVariable "  " (VString "x") (Session.user "c") = Session.user "c" /\
  JsString.trim " file " <> EmptyString /\
  EcmaToString.renders (VNumber (Num (-50))) "-50" = true /\
  variables (putVariable " file " (VNumber (Num (-50))) (Session.user "c")) =
    [("file", "-50")].
Proof.
  split; [reflexivity|]. split.
  - exact (proj1 (putVariable_stores_trimmed_name "  " (VString "x") (Session.user "c"))
                 eq_refl).
  - assert (JsString.trim " file " <> EmptyString) as Hne by discriminate.
    split; [exact Hne|].
    destruct (proj1 (proj2 (putVariable_stores_trimmed_name
                              " file " (VNumber (Num (-50))) (Session.user "c")))
                    Hne eq_refl) as (s & Hrenders & Hput & Hget & _).
    assert (s = "-50") as -> by (cbv in Hget; now injection Hget as <-).
    split; [exact Hrenders|]. exact (f_equal variables Hput).
Defined.

(** C10: when two [putVariable] calls (with any calls in between) use names
    that trim to the same non-empty string, the map afterwards has exactly
    one entry under that trimmed name, and it carries what the later call's
    value renders to with [toString()] (for every later value the model
    stands for); and whatever calls follow, every key of the map stays a
    trimmed, non-empty string and no key is repeated. *)
Theorem putVariable_last_write_wins
    (c : ICompilerConfigs) (n1 n2 : string) (v1 v2 : VarValue)
    (between later : list (string * VarValue)) :
  variables_ok c ->
  JsString.trim n1 = JsString.trim n2 ->
  JsString.trim n2 <> EmptyString ->
  EcmaToString.in_model v2 = true ->
  let c' := putVariable n2 v2 (putVariables between (putVariable n1 v1 c)) in
  JsMap.entries (JsString.trim n1) (variables c') = 1%nat /\
  (exists s : string,
     EcmaToString.renders v2 s = true /\
     JsMap.get (JsString.trim n1) (variables c') = Some s) /\
  variables_ok (putVariables later c').
Proof.
  intros Hok Hsame Hne Hmodel c'.
  assert (variables_ok (putVariables between (putVariable n1 v1 c))) as Hmid
    by now apply putVariables_preserves_ok, putVariable_preserves_ok.
  subst c'. rewrite Hsame. rewrite putVariable_variables by assumption.
  split; [|split].
  - apply JsMapFacts.entries_set_same. exact (proj1 Hmid).
  - exists (valueToString v2).
    split; [now apply EcmaToStringFacts.valueToString_renders|].
    apply JsMapFacts.get_set_same.
  - apply putVariables_preserves_ok, putVariable_preserves_ok, Hmid.
Qed.

Lemma empty_variables_ok (language : string) : variables_ok (Session.user language).
Proof.
  split; [constructor|constructor].
Qed.

Lemma putVariable_last_write_wins_witness :
  let c' := putVariable "file  " (VNumber (Num 7))
              (putVariables [("n", VNumber (Num 5))]
                 (putVariable " file" (VBoolean true) (Session.user "c"))) in
  JsMap.entries "file" (variables c') = 1%nat /\
  JsMap.get "file" (variables c') = Some "7" /\
  EcmaToString.renders (VNumber (Num 7)) "7" = true /\
  variables_ok (putVariables [(" x ", VBoolean false)] c').
Proof.
  destruct (putVariable_last_write_wins (Session.user "c") " file" "file  "
              (VBoolean true) (VNumber (Num 7)) [("n", VNumber (Num 5))]
              [(" x ", VBoolean false)] (empty_variables_ok "c") eq_refl)
    as (Hentries & (s & Hrenders & Hget) & Hok); [discriminate|reflexivity|].
  assert (s = "7") as -> by (cbv in Hget; now injection Hget as <-).
  split; [exact Hentries|]. split; [exact Hget|]. split; [exact Hrenders|exact Hok].
Defined.

(** ** Descriptor resolution *)

(** C5, as the claim has it, fails for a user-set time-out of 0: the
    toolchain default replaces it. *)
Lemma optionsParser_zero_timeout_not_kept :
  let user := setExecutionTimeout (Num 0) (Session.user "c") in
  let toolchain := mkToolchain (Some "/tmp/job") None (Some "./out") (Some (Num 3000)) in
  executionTimeout user = Some (Num 0) /\
  executionTimeout (optionsParser toolchain user) = Some (Num 3000) /\
  executionTimeout (optionsParser toolchain user) <> executionTimeout user.
Proof.
  repeat split. discriminate.
Qed.

(** C5 (amended): resolution always overwrites the working directory and the
    compile and run command templates with the toolchain's; a time-out set
    through [executionTimeout(value)] is kept when the value is truthy, that
    is any number other than 0 and NaN; when it was never set, or set to 0 or
    NaN, the toolchain's default takes its place. *)
Theorem optionsParser_merge (compiler : Toolchain) (c : ICompilerConfigs) :
  filePath (optionsParser compiler c) = tc_filePath compiler /\
  compileCommand (optionsParser compiler c) = tc_compileCommand compiler /\
  runCommand (optionsParser compiler c) = tc_runCommand compiler /\
  (forall z : Z, z <> 0%Z ->
     executionTimeout (optionsParser compiler (setExecutionTimeout (Num z) c)) =
     Some (Num z)) /\
  (forall v : number, v = Num 0 \/ v = NaN ->
     executionTimeout (optionsParser compiler (setExecutionTimeout v c)) =
     tc_executionTimeout compiler) /\
  (executionTimeout c = None ->
     executionTimeout (optionsParser compiler c) = tc_executionTimeout compiler).
Proof.
  repeat split.
  - intros z Hz. simpl. apply Z.eqb_neq in Hz. now rewrite Hz.
  - intros v [-> | ->]; reflexivity.
  - intros Hnone. simpl. now rewrite Hnone.
Qed.

Lemma optionsParser_merge_witness :
  executionTimeout
    (optionsParser (mkToolchain (Some "/tmp/job") None (Some "./out") (Some (Num 3000)))
                   (setExecutionTimeout (Num 250) (Session.user "c"))) = Some (Num 250) /\
  executionTimeout
    (optionsParser (mkToolchain (Some "/tmp/job") None (Some "./out") (Some (Num 3000)))
                   (Session.user "c")) = Some (Num 3000).
Proof.
  pose proof (optionsParser_merge
                (mkToolchain (Some "/tmp/job") None (Some "./out") (Some (Num 3000)))
                (Session.user "c")) as (_ & _ & _ & Hkept & _ & Hunset).
  split.
  - apply (Hkept 250%Z). discriminate.
  - apply Hunset. reflexivity.
Defined.

(** ** Observers *)

Lemma deliver_In {A : Type} (n : Notification A) (sent : list (Notification A)) :
  In n (deliver sent) -> In n sent.
Proof.
  induction sent as [|[a|e|] rest IH]; simpl; intuition.
Qed.

Lemma code_is_spec (code : Z) (o : option Z) :
  code_is code o = true <-> o = Some code.
Proof.
  destruct o as [rc|]; simpl.
  - rewrite Z.eqb_eq. split; congruence.
  - split; discriminate.
Qed.

Lemma code_is_false (code : Z) (o : option Z) :
  code_is code o = false <-> o <> Some code.
Proof.
  rewrite <- code_is_spec. destruct (code_is code o); split; congruence.
Qed.

(** Exactly one of the listed conditions holds. *)
Definition exactly_one (conditions : list bool) : Prop :=
  length (filter (fun b => b) conditions) = 1%nat.

Lemma dispatch_never_guard (o : ICompilerOutput) (c : ICompilerConfigs) :
  dispatch o c <> FailedToCompileGuard.
Proof.
  unfold dispatch, SUCCESS_CODE.
  destruct (code_is 0 (returnCode o)), (JsString.truthy (runCommand c)); discriminate.
Qed.

Section MediatorFacts.

Variable CommandBuilder : Type.
Variable newCommandBuilder : string -> CommandBuilder.
Variable cb_putVariables : JsMap.t -> CommandBuilder -> CommandBuilder.
Variable cb_buildCommand : CommandBuilder -> string.
Variable os : nat -> Spawn -> Behaviour.
Variable getCompiler : string -> Error + Toolchain.

Local Abbreviation configureCommand' :=
  (configureCommand CommandBuilder newCommandBuilder cb_putVariables cb_buildCommand).
Local Abbreviation run_command' :=
  (run_command CommandBuilder newCommandBuilder cb_putVariables cb_buildCommand).
Local Abbreviation run_process' :=
  (run_process CommandBuilder newCommandBuilder cb_putVariables cb_buildCommand).
Local Abbreviation run' :=
  (run CommandBuilder newCommandBuilder cb_putVariables cb_buildCommand os).
Local Abbreviation compile' :=
  (compile CommandBuilder newCommandBuilder cb_putVariables cb_buildCommand os).
Local Abbreviation on_compile_output' :=
  (on_compile_output CommandBuilder newCommandBuilder cb_putVariables cb_buildCommand os).
Local Abbreviation compileAndRun' :=
  (compileAndRun CommandBuilder newCommandBuilder cb_putVariables cb_buildCommand os).
Local Abbreviation execute' :=
  (execute CommandBuilder newCommandBuilder cb_putVariables cb_buildCommand os
           getCompiler).

(** The output [run] reports for a subprocess behaviour. *)
Definition outcome (b : Behaviour) : list (Notification ICompilerOutput) :=
  match finish b with
  | Some f => [OnNext (finished_output b f); OnComplete]
  | None => []
  end.

Lemma deliver_outcome (b : Behaviour) : deliver (outcome b) = outcome b.
Proof.
  unfold outcome. now destruct (finish b).
Qed.

Lemma run_world (c : ICompilerConfigs) (ins : list string) (w : World) :
  snd (run' c ins w) = record_spawn (run_process' c ins) w.
Proof.
  reflexivity.
Qed.

Lemma run_with_command (c : ICompilerConfigs) (ins : list string) (w : World) :
  JsString.truthy (runCommand c) = true ->
  run_process' c ins =
    mkSpawn (configureCommand' c (optString (runCommand c))) (filePath c)
            (executionTimeout c) (if (0 <? length ins)%nat then Some ins else None) /\
  fst (run' c ins w) = outcome (os (length (spawned w)) (run_process' c ins)).
Proof.
  intros Hrun. unfold run, run_process, run_command. rewrite Hrun. simpl.
  split; [reflexivity|]. apply deliver_outcome.
Qed.

Lemma run_without_command (c : ICompilerConfigs) (ins : list string) (w : World) :
  JsString.truthy (runCommand c) = false ->
  run_process' c ins =
    mkSpawn "" (filePath c) (executionTimeout c)
            (if (0 <? length ins)%nat then Some ins else None) /\
  fst (run' c ins w) = [OnError Messages.runCommandNotFound].
Proof.
  intros Hrun. unfold run, run_process, run_command. rewrite Hrun.
  split; reflexivity.
Qed.

(** Forwarding with both callbacks keeps a well-formed source as it is. *)
Lemma forward_outcome (b : Behaviour) (w : World) :
  subscribe forward_next (Some forward_error) (outcome b) w = (outcome b, w).
Proof.
  unfold outcome. now destruct (finish b).
Qed.

Lemma compile_with_both_commands (c : ICompilerConfigs) (w : World) :
  JsString.truthy (compileCommand c) = true ->
  JsString.truthy (runCommand c) = true ->
  compile' c w =
    (outcome (os (length (spawned w))
                 (run_process' c [optString (compileCommand c)])),
     record_spawn (run_process' c [optString (compileCommand c)]) w).
Proof.
  intros Hcompile Hrun. unfold compile. rewrite Hcompile.
  destruct (run_with_command c [optString (compileCommand c)] w Hrun) as [_ Hfst].
  pose proof (run_world c [optString (compileCommand c)] w) as Hsnd.
  destruct (run' c [optString (compileCommand c)] w) as [source w1].
  simpl in Hfst, Hsnd. subst source w1.
  rewrite forward_outcome. now rewrite deliver_outcome.
Qed.

Lemma compile_without_run_command (c : ICompilerConfigs) (w : World) :
  JsString.truthy (compileCommand c) = true ->
  JsString.truthy (runCommand c) = false ->
  compile' c w =
    ([OnError Messages.runCommandNotFound],
     record_spawn (run_process' c [optString (compileCommand c)]) w).
Proof.
  intros Hcompile Hrun. unfold compile. rewrite Hcompile.
  destruct (run_without_command c [optString (compileCommand c)] w Hrun) as [_ Hfst].
  pose proof (run_world c [optString (compileCommand c)] w) as Hsnd.
  destruct (run' c [optString (compileCommand c)] w) as [source w1].
  simpl in Hfst, Hsnd. subst source w1. reflexivity.
Qed.

Lemma compile_nothing_to_do (c : ICompilerConfigs) (w : World) :
  JsString.truthy (compileCommand c) = false ->
  compile' c w = ([OnNext (mkOutput (Some 0%Z) None None); OnComplete], w).
Proof.
  intros Hcompile. unfold compile. now rewrite Hcompile.
Qed.

(** [compileAndRun] once [compile()] has delivered a value. *)
Lemma compileAndRun_after_value (c : ICompilerConfigs) (w : World) (o : ICompilerOutput) :
  fst (compile' c w) = [OnNext o; OnComplete] ->
  compileAndRun' c w =
    (fst (on_compile_output' c o (snd (compile' c w))) ++ [],
     snd (on_compile_output' c o (snd (compile' c w)))).
Proof.
  intros Hvalue. unfold compileAndRun.
  destruct (compile' c w) as [source w1]. simpl in Hvalue. subst source. simpl.
  now destruct (on_compile_output' c o w1).
Qed.

(** [compileAndRun] once [compile()] has failed: nobody listens. *)
Lemma compileAndRun_after_error (c : ICompilerConfigs) (w : World) (e : Error) :
  fst (compile' c w) = [OnError e] ->
  compileAndRun' c w = ([], report_uncaught e (snd (compile' c w))).
Proof.
  intros Herror. unfold compileAndRun.
  destruct (compile' c w) as [source w1]. simpl in Herror. now subst source.
Qed.

Lemma execute_resolved (c : ICompilerConfigs) (w : World) (compiler : Toolchain) :
  getCompiler (compilerName c) = inr compiler ->
  execute' c w =
    (deliver (fst (compileAndRun' (optionsParser compiler (configureDefaultOptions c)) w)),
     optionsParser compiler (configureDefaultOptions c),
     snd (compileAndRun' (optionsParser compiler (configureDefaultOptions c)) w)).
Proof.
  intros Hload. unfold execute.
  change (compilerName (configureDefaultOptions c)) with (compilerName c).
  rewrite Hload.
  now destruct (compileAndRun' (optionsParser compiler (configureDefaultOptions c)) w).
Qed.

(** What an observer can be sent through a subscription comes from one of
    the two callbacks. *)
Lemma subscribe_In {A B : Type}
    (next : A -> World -> list (Notification B) * World)
    (error : option (Error -> list (Notification B)))
    (source : list (Notification A)) (w : World) (n : Notification B) :
  In n (fst (subscribe next error source w)) ->
  (exists a w', In n (fst (next a w'))) \/
  (exists e handler, error = Some handler /\ In (OnError e) source /\ In n (handler e)).
Proof.
  revert w. induction source as [|[a|e|] rest IH]; intros w; simpl.
  - intros [].
  - destruct (next a w) as [sent w1] eqn:Hnext.
    destruct (subscribe next error rest w1) as [more w2] eqn:Hrest. simpl.
    intros Hin. apply in_app_or in Hin. destruct Hin as [Hin|Hin].
    + left. exists a, w. now rewrite Hnext.
    + specialize (IH w1). rewrite Hrest in IH.
      destruct (IH Hin) as [Hl|(e & h & He & Hsrc & Hh)]; [now left|].
      right. exists e, h. repeat split; try assumption. now right.
  - destruct error as [handler|]; simpl; [|intros []].
    intros Hin. right. exists e, handler. repeat split; try assumption. now left.
  - intros [].
Qed.

Lemma run_errors (c : ICompilerConfigs) (ins : list string) (w : World) (e : Error) :
  In (OnError e) (fst (run' c ins w)) -> e = Messages.runCommandNotFound.
Proof.
  unfold run. simpl. intros Hin. apply deliver_In in Hin.
  apply in_app_or in Hin. destruct Hin as [Hin|Hin].
  - unfold run_command in Hin.
    destruct (JsString.truthy (runCommand c)); simpl in Hin.
    + destruct Hin.
    + destruct Hin as [Heq|[]]. congruence.
  - destruct (finish _); simpl in Hin; [|destruct Hin].
    destruct Hin as [Heq|[Heq|[]]]; discriminate.
Qed.

Lemma on_compile_output_errors
    (c : ICompilerConfigs) (o : ICompilerOutput) (w : World) (e : Error) :
  In (OnError e) (fst (on_compile_output' c o w)) -> e = Messages.runCommandNotFound.
Proof.
  unfold on_compile_output.
  pose proof (dispatch_never_guard o c) as Hguard.
  destruct (dispatch o c); try contradiction.
  - pose proof (run_errors c (inputs c) w) as Hrun.
    destruct (run' c (inputs c) w) as [source w1]. simpl in Hrun.
    intros Hin. apply subscribe_In in Hin.
    destruct Hin as [(a & w' & Hin)|(e' & h & Hh & Hsrc & Hin)].
    + simpl in Hin. destruct Hin as [Heq|[Heq|[]]]; discriminate.
    + injection Hh as <-. simpl in Hin. destruct Hin as [Heq|[]].
      injection Heq as <-. now apply Hrun.
  - intros [Heq|[]]. congruence.
  - intros [Heq|[Heq|[]]]; discriminate.
Qed.

Lemma compileAndRun_errors (c : ICompilerConfigs) (w : World) (e : Error) :
  In (OnError e) (fst (compileAndRun' c w)) -> e = Messages.runCommandNotFound.
Proof.
  unfold compileAndRun. destruct (compile' c w) as [source w1].
  intros Hin. apply subscribe_In in Hin.
  destruct Hin as [(o & w' & Hin)|(e' & h & Hh & _)]; [|discriminate].
  now apply on_compile_output_errors in Hin.
Qed.

(** ** The dispatch after the compile phase *)

(** C6: when the toolchain has a run command and the compile phase delivers
    an output whose return code is not 0, [execute()] delivers exactly that
    output and completes, and the world is left as the compile phase left it:
    the only subprocess started is the compile phase's, none for the run
    phase. *)
Theorem compile_failure_is_final
    (c : ICompilerConfigs) (w : World) (compiler : Toolchain) (o : ICompilerOutput) :
  getCompiler (compilerName c) = inr compiler ->
  JsString.truthy (tc_runCommand compiler) = true ->
  fst (compile' (optionsParser compiler (configureDefaultOptions c)) w) =
    [OnNext o; OnComplete] ->
  returnCode o <> Some 0%Z ->
  let resolved := optionsParser compiler (configureDefaultOptions c) in
  execute' c w = ([OnNext o; OnComplete], resolved, snd (compile' resolved w)) /\
  length (spawned (snd (compile' resolved w))) = S (length (spawned w)).
Proof.
  intros Hload Hrun Hvalue Hcode resolved. split.
  - rewrite (execute_resolved c w compiler Hload). fold resolved.
    rewrite (compileAndRun_after_value resolved w o Hvalue).
    unfold on_compile_output, dispatch, SUCCESS_CODE.
    apply code_is_false in Hcode. rewrite Hcode.
    change (runCommand resolved) with (tc_runCommand compiler). rewrite Hrun.
    reflexivity.
  - destruct (JsString.truthy (compileCommand resolved)) eqn:Hcompile.
    + rewrite compile_with_both_commands by assumption.
      simpl. rewrite length_app. simpl. lia.
    + rewrite compile_nothing_to_do in Hvalue by assumption.
      simpl in Hvalue. injection Hvalue as <-. now contradiction Hcode.
Qed.

(** ** Where the code departs from the specification *)

(** C1: with both commands set, the subprocess of the compile phase executes
    the command built from [runCommand], and the [compileCommand] template is
    written to its standard input as one line. *)
Theorem compile_phase_spawns_run_command (c : ICompilerConfigs) (w : World) :
  JsString.truthy (compileCommand c) = true ->
  JsString.truthy (runCommand c) = true ->
  spawned (snd (compile' c w)) =
    spawned w ++
    [mkSpawn (configureCommand' c (optString (runCommand c))) (filePath c)
             (executionTimeout c) (Some [optString (compileCommand c)])].
Proof.
  intros Hcompile Hrun. rewrite compile_with_both_commands by assumption.
  simpl. now destruct (run_with_command c [optString (compileCommand c)] w Hrun) as [-> _].
Qed.

(** C2: an error delivered by the compile phase is not passed on: the
    observer of [execute()] receives no notification at all and the error is
    left uncaught. *)
Theorem compile_phase_error_not_delivered
    (c : ICompilerConfigs) (w : World) (compiler : Toolchain) (e : Error) :
  getCompiler (compilerName c) = inr compiler ->
  fst (compile' (optionsParser compiler (configureDefaultOptions c)) w) = [OnError e] ->
  let resolved := optionsParser compiler (configureDefaultOptions c) in
  fst (fst (execute' c w)) = [] /\
  uncaught (snd (execute' c w)) = uncaught (snd (compile' resolved w)) ++ [e].
Proof.
  intros Hload Herror resolved.
  rewrite (execute_resolved c w compiler Hload). fold resolved.
  rewrite (compileAndRun_after_error resolved w e Herror). split; reflexivity.
Qed.

(** C3: with no run command, [run] sends [CompilationError("runCommand not
    found.")] and nevertheless constructs a [ProcessWrapper] on the empty
    command. *)
Theorem run_without_command_still_spawns
    (c : ICompilerConfigs) (ins : list string) (w : World) :
  JsString.truthy (runCommand c) = false ->
  fst (run' c ins w) = [OnError Messages.runCommandNotFound] /\
  spawned (snd (run' c ins w)) =
    spawned w ++
    [mkSpawn "" (filePath c) (executionTimeout c)
             (if (0 <? length ins)%nat then Some ins else None)].
Proof.
  intros Hrun. destruct (run_without_command c ins w Hrun) as [Hproc Hfst].
  split; [exact Hfst|]. rewrite run_world. simpl. now rewrite Hproc.
Qed.

(** C4: when the subprocess finishes, [took] is the nanosecond component of
    the [hrtime] difference in milliseconds; it falls short of the elapsed
    time by the whole seconds. *)
Theorem took_drops_whole_seconds
    (c : ICompilerConfigs) (ins : list string) (w : World) (f : Finish) :
  JsString.truthy (runCommand c) = true ->
  finish (os (length (spawned w)) (run_process' c ins)) = Some f ->
  exists o : ICompilerOutput,
    fst (run' c ins w) = [OnNext o; OnComplete] /\
    returnCode o = Some (exitCode f) /\
    took o = Some (inject_Z (hr_nanoseconds f) / 1000000)%Q /\
    (elapsed_ms f - inject_Z (hr_nanoseconds f) / 1000000 ==
     inject_Z (hr_seconds f) * 1000)%Q.
Proof.
  intros Hrun Hfinish.
  destruct (run_with_command c ins w Hrun) as [_ Hfst].
  exists (finished_output (os (length (spawned w)) (run_process' c ins)) f).
  split.
  - rewrite Hfst. unfold outcome. now rewrite Hfinish.
  - repeat split. unfold elapsed_ms. ring.
Qed.

(** C7: with no run command after resolution, [execute()] fails with
    [CompilationError("runCommand not found.")] when there is no compile
    command; when there is one, its observer receives nothing, a subprocess
    is started on the empty command and the error is left uncaught. *)
Theorem missing_run_command_outcomes
    (c : ICompilerConfigs) (w : World) (compiler : Toolchain) :
  getCompiler (compilerName c) = inr compiler ->
  JsString.truthy (tc_runCommand compiler) = false ->
  let resolved := optionsParser compiler (configureDefaultOptions c) in
  (JsString.truthy (tc_compileCommand compiler) = false ->
     execute' c w = ([OnError Messages.runCommandNotFound], resolved, w)) /\
  (JsString.truthy (tc_compileCommand compiler) = true ->
     execute' c w =
       ([], resolved,
        report_uncaught Messages.runCommandNotFound
          (record_spawn
             (mkSpawn "" (tc_filePath compiler) (executionTimeout resolved)
                      (Some [optString (tc_compileCommand compiler)])) w))).
Proof.
  intros Hload Hrun resolved.
  assert (JsString.truthy (runCommand resolved) = false) as Hrun' by exact Hrun.
  rewrite (execute_resolved c w compiler Hload). fold resolved. split.
  - intros Hcompile.
    assert (JsString.truthy (compileCommand resolved) = false) as Hc by exact Hcompile.
    pose proof (compile_nothing_to_do resolved w Hc) as Hcomp.
    rewrite (compileAndRun_after_value resolved w (mkOutput (Some 0%Z) None None))
      by now rewrite Hcomp.
    rewrite Hcomp. unfold on_compile_output, dispatch, SUCCESS_CODE.
    rewrite Hrun'. reflexivity.
  - intros Hcompile.
    assert (JsString.truthy (compileCommand resolved) = true) as Hc by exact Hcompile.
    pose proof (compile_without_run_command resolved w Hc Hrun') as Hcomp.
    rewrite (compileAndRun_after_error resolved w Messages.runCommandNotFound)
      by now rewrite Hcomp.
    rewrite Hcomp.
    destruct (run_without_command resolved [optString (compileCommand resolved)] w Hrun')
      as [-> _].
    reflexivity.
Qed.

(** ** [execute()] case by case *)

Lemma record_spawn_length (p : Spawn) (w : World) :
  length (spawned (record_spawn p w)) = S (length (spawned w)).
Proof.
  simpl. rewrite length_app. simpl. lia.
Qed.

Lemma on_compile_output_run_phase
    (c : ICompilerConfigs) (o : ICompilerOutput) (w : World) :
  code_is 0 (returnCode o) = true ->
  JsString.truthy (runCommand c) = true ->
  on_compile_output' c o w =
    (outcome (os (length (spawned w)) (run_process' c (inputs c))),
     record_spawn (run_process' c (inputs c)) w).
Proof.
  intros Hcode Hrun. unfold on_compile_output, dispatch, SUCCESS_CODE.
  rewrite Hcode, Hrun. cbn [andb].
  destruct (run_with_command c (inputs c) w Hrun) as [_ Hfst].
  pose proof (run_world c (inputs c) w) as Hsnd.
  destruct (run' c (inputs c) w) as [source w1]. simpl in Hfst, Hsnd. subst source w1.
  apply forward_outcome.
Qed.

Lemma on_compile_output_passthrough
    (c : ICompilerConfigs) (o : ICompilerOutput) (w : World) :
  code_is 0 (returnCode o) = false ->
  JsString.truthy (runCommand c) = true ->
  on_compile_output' c o w = ([OnNext o; OnComplete], w).
Proof.
  intros Hcode Hrun. unfold on_compile_output, dispatch, SUCCESS_CODE.
  now rewrite Hcode, Hrun.
Qed.

Lemma on_compile_output_no_run_command
    (c : ICompilerConfigs) (o : ICompilerOutput) (w : World) :
  JsString.truthy (runCommand c) = false ->
  on_compile_output' c o w = ([OnError Messages.runCommandNotFound], w).
Proof.
  intros Hrun. unfold on_compile_output, dispatch. rewrite Hrun.
  now rewrite andb_false_r.
Qed.

Lemma compileAndRun_after_silence (c : ICompilerConfigs) (w : World) :
  fst (compile' c w) = [] -> compileAndRun' c w = ([], snd (compile' c w)).
Proof.
  intros Hnone. unfold compileAndRun.
  destruct (compile' c w) as [source w1]. simpl in Hnone. now subst source.
Qed.

(** [compileAndRun] written out over the two truthiness tests, the first
    subprocess's fate and its exit code. *)
Definition compileAndRun_by_cases (c : ICompilerConfigs) (w : World)
  : list (Notification ICompilerOutput) * World :=
  let n := length (spawned w) in
  let first := run_process' c [optString (compileCommand c)] in
  let second := run_process' c (inputs c) in
  if JsString.truthy (compileCommand c) then
    if JsString.truthy (runCommand c) then
      match finish (os n first) with
      | None => ([], record_spawn first w)
      | Some f =>
          if (exitCode f =? 0)%Z
          then (outcome (os (S n) second), record_spawn second (record_spawn first w))
          else ([OnNext (finished_output (os n first) f); OnComplete],
                record_spawn first w)
      end
    else ([], report_uncaught Messages.runCommandNotFound (record_spawn first w))
  else if JsString.truthy (runCommand c)
       then (outcome (os n second), record_spawn second w)
       else ([OnError Messages.runCommandNotFound], w).

Lemma compileAndRun_unfolded (c : ICompilerConfigs) (w : World) :
  compileAndRun' c w = compileAndRun_by_cases c w.
Proof.
  unfold compileAndRun_by_cases.
  destruct (JsString.truthy (compileCommand c)) eqn:Hcompile;
    destruct (JsString.truthy (runCommand c)) eqn:Hrun.
  - pose proof (compile_with_both_commands c w Hcompile Hrun) as Hcomp.
    unfold outcome in Hcomp.
    destruct (finish (os (length (spawned w))
                         (run_process' c [optString (compileCommand c)]))) as [f|] eqn:Hf.
    + rewrite (compileAndRun_after_value c w _ (f_equal fst Hcomp)).
      rewrite Hcomp. cbn [snd]. rewrite app_nil_r.
      destruct (exitCode f =? 0)%Z eqn:Hexit.
      * rewrite on_compile_output_run_phase by assumption.
        now rewrite record_spawn_length.
      * now rewrite on_compile_output_passthrough by assumption.
    + rewrite (compileAndRun_after_silence c w (f_equal fst Hcomp)).
      now rewrite Hcomp.
  - pose proof (compile_without_run_command c w Hcompile Hrun) as Hcomp.
    rewrite (compileAndRun_after_error c w _ (f_equal fst Hcomp)).
    now rewrite Hcomp.
  - pose proof (compile_nothing_to_do c w Hcompile) as Hcomp.
    rewrite (compileAndRun_after_value c w _ (f_equal fst Hcomp)).
    rewrite Hcomp. cbn [snd]. rewrite app_nil_r.
    now rewrite on_compile_output_run_phase by (reflexivity || assumption).
  - pose proof (compile_nothing_to_do c w Hcompile) as Hcomp.
    rewrite (compileAndRun_after_value c w _ (f_equal fst Hcomp)).
    rewrite Hcomp. cbn [snd]. rewrite app_nil_r.
    now rewrite on_compile_output_no_run_command by assumption.
Qed.

(** C8: for every output the compile phase delivers, exactly one of the
    three conditions holds (success code with a run command; no run command;
    another code with a run command), [compileAndRun] does what that branch
    says and nothing else, and the guard branch is never taken.  But when
    the compile phase ends in an error, which is what happens with a compile
    command and no run command, no branch fires at all: the observer is sent
    nothing, not even the error of the branch for a missing run command. *)
Theorem dispatch_after_compile :
  (forall (o : ICompilerOutput) (c : ICompilerConfigs) (w : World),
     let success := code_is SUCCESS_CODE (returnCode o) in
     let hasRun := JsString.truthy (runCommand c) in
     exactly_one [success && hasRun; negb hasRun; negb success && hasRun] /\
     dispatch o c <> FailedToCompileGuard /\
     on_compile_output' c o w =
       (if success && hasRun
        then (outcome (os (length (spawned w)) (run_process' c (inputs c))),
              record_spawn (run_process' c (inputs c)) w)
        else if negb hasRun
             then ([OnError Messages.runCommandNotFound], w)
             else ([OnNext o; OnComplete], w))) /\
  (forall (c : ICompilerConfigs) (w : World) (o : ICompilerOutput),
     fst (compile' c w) = [OnNext o; OnComplete] ->
     compileAndRun' c w = on_compile_output' c o (snd (compile' c w))) /\
  (forall (c : ICompilerConfigs) (w : World),
     ~ In (OnError Messages.failedToCompile) (fst (compileAndRun' c w))) /\
  (forall (c : ICompilerConfigs) (w : World),
     JsString.truthy (compileCommand c) = true ->
     JsString.truthy (runCommand c) = false ->
     fst (compile' c w) = [OnError Messages.runCommandNotFound] /\
     compileAndRun' c w =
       ([], report_uncaught Messages.runCommandNotFound
              (record_spawn (run_process' c [optString (compileCommand c)]) w))).
Proof.
  split; [|split; [|split]].
  - intros o c w success hasRun. split; [|split].
    + subst success hasRun. unfold exactly_one.
      now destruct (code_is SUCCESS_CODE (returnCode o)),
                   (JsString.truthy (runCommand c)).
    + apply dispatch_never_guard.
    + subst success hasRun. unfold SUCCESS_CODE.
      destruct (code_is 0 (returnCode o)) eqn:Hcode;
        destruct (JsString.truthy (runCommand c)) eqn:Hrun; cbn [andb negb].
      * now apply on_compile_output_run_phase.
      * now apply on_compile_output_no_run_command.
      * now apply on_compile_output_passthrough.
      * now apply on_compile_output_no_run_command.
  - intros c w o Hvalue. rewrite (compileAndRun_after_value c w o Hvalue).
    rewrite app_nil_r. now destruct (on_compile_output' c o (snd (compile' c w))).
  - intros c w Hin. apply compileAndRun_errors in Hin. discriminate.
  - intros c w Hcompile Hrun.
    pose proof (compile_without_run_command c w Hcompile Hrun) as Hcomp.
    split; [now rewrite Hcomp|].
    rewrite (compileAndRun_after_error c w _ (f_equal fst Hcomp)).
    now rewrite Hcomp.
Qed.

(** What one subscription may receive: nothing, one value followed by
    [complete], or one error. *)
Definition single_outcome {A : Type} (ns : list (Notification A)) : Prop :=
  ns = [] \/ (exists a, ns = [OnNext a; OnComplete]) \/ (exists e, ns = [OnError e]).

Lemma single_outcome_deliver {A : Type} (ns : list (Notification A)) :
  single_outcome ns -> deliver ns = ns.
Proof.
  intros [-> | [[a ->] | [e ->]]]; reflexivity.
Qed.

Lemma outcome_single (b : Behaviour) : single_outcome (outcome b).
Proof.
  unfold outcome, single_outcome. destruct (finish b) as [f|]; eauto.
Qed.

Lemma compileAndRun_single (c : ICompilerConfigs) (w : World) :
  single_outcome (fst (compileAndRun' c w)).
Proof.
  rewrite compileAndRun_unfolded. unfold compileAndRun_by_cases.
  destruct (JsString.truthy (compileCommand c)), (JsString.truthy (runCommand c));
    cbn [fst]; try apply outcome_single; try (left; reflexivity).
  - destruct (finish _) as [f|]; [|left; reflexivity].
    destruct (exitCode f =? 0)%Z; cbn [fst]; [apply outcome_single|].
    right; left; eauto.
  - right; right; eauto.
Qed.

Lemma execute_resolved_plain (c : ICompilerConfigs) (w : World) (compiler : Toolchain) :
  getCompiler (compilerName c) = inr compiler ->
  execute' c w =
    (fst (compileAndRun_by_cases (optionsParser compiler (configureDefaultOptions c)) w),
     optionsParser compiler (configureDefaultOptions c),
     snd (compileAndRun_by_cases (optionsParser compiler (configureDefaultOptions c)) w)).
Proof.
  intros Hload. rewrite (execute_resolved c w compiler Hload).
  rewrite (single_outcome_deliver _ (compileAndRun_single _ w)).
  now rewrite compileAndRun_unfolded.
Qed.

(** The subprocess [run] asks for once the toolchain is resolved. *)
Lemma run_process_resolved
    (c : ICompilerConfigs) (compiler : Toolchain) (ins : list string) :
  run_process' (optionsParser compiler (configureDefaultOptions c)) ins =
    mkSpawn (if JsString.truthy (tc_runCommand compiler)
             then configureCommand' (optionsParser compiler (configureDefaultOptions c))
                                    (optString (tc_runCommand compiler))
             else "")
            (tc_filePath compiler)
            (if JsNumber.truthy (executionTimeout c)
             then executionTimeout c else tc_executionTimeout compiler)
            (if (0 <? length ins)%nat then Some ins else None).
Proof.
  unfold run_process, run_command. cbn [runCommand optionsParser].
  now destruct (JsString.truthy (tc_runCommand compiler)).
Qed.

(** ** Further properties of [execute()] *)

(** X1: when the toolchain lookup fails, [execute()] delivers that error and
    nothing else, starts no subprocess, and leaves the configuration as it
    was except for the working directory, which is the user's when that is
    truthy and ["./"] otherwise. *)
Theorem execute_load_failure (c : ICompilerConfigs) (w : World) (e : Error) :
  getCompiler (compilerName c) = inl e ->
  execute' c w =
    ([OnError e],
     mkConfigs (compilerName c)
               (if JsString.truthy (filePath c) then filePath c else Some "./")
               (compileCommand c) (runCommand c) (executionTimeout c)
               (variables c) (inputs c),
     w).
Proof.
  intros Hload. unfold execute.
  change (compilerName (configureDefaultOptions c)) with (compilerName c).
  now rewrite Hload.
Qed.

(** X2: the working directory and the two command templates the user
    configured have no effect on what [execute()] delivers or on what it
    does to the world: two configurations that differ only there behave
    alike. *)
Theorem execute_ignores_user_commands
    (name : string) (timeout : option number) (vars : JsMap.t) (ins : list string)
    (dir1 compile1 run1 dir2 compile2 run2 : option string) (w : World) :
  fst (fst (execute' (mkConfigs name dir1 compile1 run1 timeout vars ins) w)) =
  fst (fst (execute' (mkConfigs name dir2 compile2 run2 timeout vars ins) w)) /\
  snd (execute' (mkConfigs name dir1 compile1 run1 timeout vars ins) w) =
  snd (execute' (mkConfigs name dir2 compile2 run2 timeout vars ins) w).
Proof.
  unfold execute. cbn [compilerName configureDefaultOptions].
  destruct (getCompiler name) as [e|compiler]; [split; reflexivity|].
  cbn [optionsParser compilerName filePath compileCommand runCommand executionTimeout
       variables inputs].
  split; reflexivity.
Qed.

(** X3: with no compile command in the toolchain and a run command, one
    subprocess is started, on the command built from the run command, in the
    toolchain's directory, with the input lines written when there are any;
    when it finishes, [execute()] delivers its output, whatever the exit
    code, and completes. *)
Theorem execute_interpreted
    (c : ICompilerConfigs) (w : World) (compiler : Toolchain) (f : Finish) :
  getCompiler (compilerName c) = inr compiler ->
  JsString.truthy (tc_compileCommand compiler) = false ->
  JsString.truthy (tc_runCommand compiler) = true ->
  let resolved := optionsParser compiler (configureDefaultOptions c) in
  let proc :=
    mkSpawn (configureCommand' resolved (optString (tc_runCommand compiler)))
            (tc_filePath compiler) (executionTimeout resolved)
            (if (0 <? length (inputs c))%nat then Some (inputs c) else None) in
  finish (os (length (spawned w)) proc) = Some f ->
  execute' c w =
    ([OnNext (finished_output (os (length (spawned w)) proc) f); OnComplete],
     resolved, record_spawn proc w).
Proof.
  intros Hload Hcompile Hrun resolved proc Hf.
  rewrite (execute_resolved_plain c w compiler Hload). fold resolved.
  unfold compileAndRun_by_cases.
  change (JsString.truthy (compileCommand resolved))
    with (JsString.truthy (tc_compileCommand compiler)).
  change (JsString.truthy (runCommand resolved))
    with (JsString.truthy (tc_runCommand compiler)).
  rewrite Hcompile, Hrun.
  assert (run_process' resolved (inputs resolved) = proc) as ->.
  { unfold resolved at 1. rewrite run_process_resolved. now rewrite Hrun. }
  unfold outcome. now rewrite Hf.
Qed.

(** X4: with both commands in the toolchain, when the first subprocess exits
    with 0 a second one is started on the same command, now with the
    configured input lines; what [execute()] delivers is the second one's
    output alone, the first one's output is dropped. *)
Theorem execute_compiled
    (c : ICompilerConfigs) (w : World) (compiler : Toolchain) (f1 f2 : Finish) :
  getCompiler (compilerName c) = inr compiler ->
  JsString.truthy (tc_compileCommand compiler) = true ->
  JsString.truthy (tc_runCommand compiler) = true ->
  let resolved := optionsParser compiler (configureDefaultOptions c) in
  let command := configureCommand' resolved (optString (tc_runCommand compiler)) in
  let first :=
    mkSpawn command (tc_filePath compiler) (executionTimeout resolved)
            (Some [optString (tc_compileCommand compiler)]) in
  let second :=
    mkSpawn command (tc_filePath compiler) (executionTimeout resolved)
            (if (0 <? length (inputs c))%nat then Some (inputs c) else None) in
  finish (os (length (spawned w)) first) = Some f1 ->
  exitCode f1 = 0%Z ->
  finish (os (S (length (spawned w))) second) = Some f2 ->
  execute' c w =
    ([OnNext (finished_output (os (S (length (spawned w))) second) f2); OnComplete],
     resolved, record_spawn second (record_spawn first w)).
Proof.
  intros Hload Hcompile Hrun resolved command first second Hf1 Hexit Hf2.
  rewrite (execute_resolved_plain c w compiler Hload). fold resolved.
  unfold compileAndRun_by_cases.
  change (JsString.truthy (compileCommand resolved))
    with (JsString.truthy (tc_compileCommand compiler)).
  change (JsString.truthy (runCommand resolved))
    with (JsString.truthy (tc_runCommand compiler)).
  rewrite Hcompile, Hrun.
  assert (run_process' resolved [optString (compileCommand resolved)] = first) as ->.
  { unfold resolved at 1. rewrite run_process_resolved. now rewrite Hrun. }
  assert (run_process' resolved (inputs resolved) = second) as ->.
  { unfold resolved at 1. rewrite run_process_resolved. now rewrite Hrun. }
  rewrite Hf1, Hexit. cbn [Z.eqb fst snd]. unfold outcome. now rewrite Hf2.
Qed.

(** X5: there is no time-out path.  With a run command in the toolchain, if
    the subprocess [execute()] is waiting for never finishes (the first one,
    or the second after a successful first), the observer receives nothing:
    no value, no error, no completion. *)
Theorem execute_stalls_silently
    (c : ICompilerConfigs) (w : World) (compiler : Toolchain) :
  getCompiler (compilerName c) = inr compiler ->
  JsString.truthy (tc_runCommand compiler) = true ->
  let resolved := optionsParser compiler (configureDefaultOptions c) in
  let first := run_process' resolved [optString (tc_compileCommand compiler)] in
  let second := run_process' resolved (inputs c) in
  (JsString.truthy (tc_compileCommand compiler) = false ->
   finish (os (length (spawned w)) second) = None ->
   execute' c w = ([], resolved, record_spawn second w)) /\
  (JsString.truthy (tc_compileCommand compiler) = true ->
   finish (os (length (spawned w)) first) = None ->
   execute' c w = ([], resolved, record_spawn first w)) /\
  (JsString.truthy (tc_compileCommand compiler) = true ->
   forall f1 : Finish,
     finish (os (length (spawned w)) first) = Some f1 ->
     exitCode f1 = 0%Z ->
     finish (os (S (length (spawned w))) second) = None ->
     execute' c w = ([], resolved, record_spawn second (record_spawn first w))).
Proof.
  intros Hload Hrun resolved first second.
  rewrite (execute_resolved_plain c w compiler Hload). fold resolved.
  unfold compileAndRun_by_cases.
  change (JsString.truthy (compileCommand resolved))
    with (JsString.truthy (tc_compileCommand compiler)).
  change (JsString.truthy (runCommand resolved))
    with (JsString.truthy (tc_runCommand compiler)).
  change (run_process' resolved [optString (compileCommand resolved)]) with first.
  change (run_process' resolved (inputs resolved)) with second.
  rewrite Hrun. repeat split.
  - intros -> Hf. unfold outcome. now rewrite Hf.
  - intros -> Hf. now rewrite Hf.
  - intros -> f1 Hf1 Hexit Hf2. rewrite Hf1, Hexit. cbn [Z.eqb].
    unfold outcome. now rewrite Hf2.
Qed.

(** X6: one subscription to [execute()] receives nothing, or one value
    followed by [complete], or one error; never a value and an error, never
    two values. *)
Theorem execute_single_outcome (c : ICompilerConfigs) (w : World) :
  single_outcome (fst (fst (execute' c w))).
Proof.
  unfold execute. destruct (getCompiler _) as [e|compiler].
  - right; right. now exists e.
  - pose proof (compileAndRun_single
                  (optionsParser compiler (configureDefaultOptions c)) w) as Hsingle.
    destruct (compileAndRun' _ w) as [sent w1]. cbn [fst] in *.
    now rewrite (single_outcome_deliver sent Hsingle).
Qed.

(** X8: once the toolchain is resolved, [execute()] adds at most two
    subprocesses to those started before, and every one of them runs the
    same command (built from the run command, or empty without one) in the
    toolchain's directory, with the user's time-out when that is truthy and
    the toolchain's otherwise. *)
Theorem execute_spawns
    (c : ICompilerConfigs) (w : World) (compiler : Toolchain) :
  getCompiler (compilerName c) = inr compiler ->
  let resolved := optionsParser compiler (configureDefaultOptions c) in
  exists started : list Spawn,
    spawned (snd (execute' c w)) = spawned w ++ started /\
    (length started <= 2)%nat /\
    (JsString.truthy (tc_compileCommand compiler) = false /\
     JsString.truthy (tc_runCommand compiler) = false <-> started = []) /\
    Forall (fun p =>
              sp_command p =
                (if JsString.truthy (tc_runCommand compiler)
                 then configureCommand' resolved (optString (tc_runCommand compiler))
                 else "") /\
              sp_currentDirectory p = tc_filePath compiler /\
              sp_executionTimeout p =
                (if JsNumber.truthy (executionTimeout c)
                 then executionTimeout c else tc_executionTimeout compiler))
           started.
Proof.
  intros Hload resolved.
  rewrite (execute_resolved_plain c w compiler Hload). fold resolved. cbn [snd].
  unfold compileAndRun_by_cases.
  change (JsString.truthy (compileCommand resolved))
    with (JsString.truthy (tc_compileCommand compiler)).
  change (JsString.truthy (runCommand resolved))
    with (JsString.truthy (tc_runCommand compiler)).
  pose proof (run_process_resolved c compiler [optString (compileCommand resolved)]) as H1.
  pose proof (run_process_resolved c compiler (inputs resolved)) as H2.
  fold resolved in H1, H2.
  set (first := run_process' resolved [optString (compileCommand resolved)]) in *.
  set (second := run_process' resolved (inputs resolved)) in *.
  assert (forall p ins,
            p = mkSpawn (if JsString.truthy (tc_runCommand compiler)
                         then configureCommand' resolved (optString (tc_runCommand compiler))
                         else "")
                        (tc_filePath compiler)
                        (if JsNumber.truthy (executionTimeout c)
                         then executionTimeout c else tc_executionTimeout compiler)
                        ins ->
            sp_command p =
              (if JsString.truthy (tc_runCommand compiler)
               then configureCommand' resolved (optString (tc_runCommand compiler))
               else "") /\
            sp_currentDirectory p = tc_filePath compiler /\
            sp_executionTimeout p =
              (if JsNumber.truthy (executionTimeout c)
               then executionTimeout c else tc_executionTimeout compiler)) as Hshape
    by (intros p ins ->; repeat split).
  pose proof (Hshape _ _ H1) as Hfirst. pose proof (Hshape _ _ H2) as Hsecond.
  clearbody first second. clear H1 H2 Hshape.
  destruct (JsString.truthy (tc_compileCommand compiler)),
           (JsString.truthy (tc_runCommand compiler)).
  - destruct (finish _) as [f|].
    + destruct (exitCode f =? 0)%Z; cbn [snd].
      * exists [first; second]. simpl. rewrite <- app_assoc. simpl.
        repeat split; try lia; auto; try discriminate;
          try (intros [Hc Hr]; discriminate).
      * exists [first]. simpl.
        repeat split; try lia; auto; try discriminate;
          try (intros [Hc Hr]; discriminate).
    + exists [first]. simpl.
      repeat split; try lia; auto; try discriminate;
        try (intros [Hc Hr]; discriminate).
  - exists [first]. simpl.
    repeat split; try lia; auto; try discriminate;
      try (intros [Hc Hr]; discriminate).
  - exists [second]. simpl.
    repeat split; try lia; auto; try discriminate;
      try (intros [Hc Hr]; discriminate).
  - exists []. simpl. rewrite app_nil_r. repeat split; auto.
Qed.

(** X9: with a run command set, and [hrtime] answering a nanosecond
    component within its range, the [took] that [run] reports for a finished
    subprocess is at least 0 and below 1000 milliseconds, however long the
    subprocess ran. *)
Theorem took_below_one_second
    (c : ICompilerConfigs) (ins : list string) (w : World) (f : Finish) :
  JsString.truthy (runCommand c) = true ->
  finish (os (length (spawned w)) (run_process' c ins)) = Some f ->
  (0 <= hr_nanoseconds f < 1000000000)%Z ->
  exists (o : ICompilerOutput) (q : Q),
    fst (run' c ins w) = [OnNext o; OnComplete] /\
    took o = Some q /\ (0 <= q)%Q /\ (q < 1000)%Q.
Proof.
  intros Hrun Hfinish Hrange.
  destruct (run_with_command c ins w Hrun) as [_ Hfst].
  exists (finished_output (os (length (spawned w)) (run_process' c ins)) f).
  exists (inject_Z (hr_nanoseconds f) / 1000000)%Q.
  split; [|split; [reflexivity|]].
  - rewrite Hfst. unfold outcome. now rewrite Hfinish.
  - unfold Qle, Qlt, Qdiv, Qmult, Qinv, inject_Z. simpl. lia.
Qed.

End MediatorFacts.

(** ** The theorems at work on the concrete session

    Each lemma below instantiates one of the theorems above on [Session]
    and discharges its hypotheses by computation. *)

Lemma compile_phase_spawns_run_command_witness :
  let c := putVariable "file" (VString "main.c")
             (mkConfigs "c" (Some "/tmp/job") (Some "cc {file} -o out") (Some "./out")
                        (Some (Num 3000)) JsMap.empty []) in
  spawned (snd (Session.compile c initial_world)) =
    [mkSpawn "./out" (Some "/tmp/job") (Some (Num 3000)) (Some ["cc {file} -o out"])].
Proof.
  exact (compile_phase_spawns_run_command
           Session.Builder Session.newBuilder Session.builderPut Session.builderBuild
           Session.machine
           (putVariable "file" (VString "main.c")
              (mkConfigs "c" (Some "/tmp/job") (Some "cc {file} -o out") (Some "./out")
                         (Some (Num 3000)) JsMap.empty []))
           initial_world eq_refl eq_refl).
Defined.

Lemma compile_phase_error_not_delivered_witness :
  fst (fst (Session.execute (Session.user "broken") initial_world)) = [] /\
  uncaught (snd (Session.execute (Session.user "broken") initial_world)) =
    [CompilationError "runCommand not found."].
Proof.
  exact (compile_phase_error_not_delivered
           Session.Builder Session.newBuilder Session.builderPut Session.builderBuild
           Session.machine Session.registry
           (Session.user "broken") initial_world
           (mkToolchain (Some "/tmp/job") (Some "cc {file} -o out") None (Some (Num 3000)))
           Messages.runCommandNotFound eq_refl eq_refl).
Defined.

Lemma run_without_command_still_spawns_witness :
  fst (Session.run (Session.user "c") ["5"; "6"] initial_world) =
    [OnError (CompilationError "runCommand not found.")] /\
  spawned (snd (Session.run (Session.user "c") ["5"; "6"] initial_world)) =
    [mkSpawn "" None None (Some ["5"; "6"])].
Proof.
  exact (run_without_command_still_spawns
           Session.Builder Session.newBuilder Session.builderPut Session.builderBuild
           Session.machine (Session.user "c") ["5"; "6"] initial_world eq_refl).
Defined.

Lemma took_drops_whole_seconds_witness :
  let c := mkConfigs "py" (Some "/tmp/job") None (Some "interp {file}")
                     (Some (Num 3000)) [("file", "main.py")] [] in
  (exists o : ICompilerOutput,
     fst (Session.run c ["5"] initial_world) = [OnNext o; OnComplete] /\
     returnCode o = Some 1%Z /\
     took o = Some (inject_Z 500000000 / 1000000)%Q /\
     (elapsed_ms (mkFinish 1 2 500000000) - inject_Z 500000000 / 1000000 ==
      inject_Z 2 * 1000)%Q) /\
  (inject_Z 500000000 / 1000000 == 500)%Q /\
  (elapsed_ms (mkFinish 1 2 500000000) == 2500)%Q.
Proof.
  split.
  - exact (took_drops_whole_seconds
             Session.Builder Session.newBuilder Session.builderPut Session.builderBuild
             Session.machine
             (mkConfigs "py" (Some "/tmp/job") None (Some "interp {file}")
                        (Some (Num 3000)) [("file", "main.py")] [])
             ["5"] initial_world (mkFinish 1 2 500000000) eq_refl eq_refl).
  - split; reflexivity.
Defined.

Lemma compile_failure_is_final_witness :
  let diagnostics :=
    mkOutput (Some 1%Z) (Some "syntax error") (Some (inject_Z 500000000 / 1000000)%Q) in
  let resolved :=
    mkConfigs "c" (Some "/tmp/job") (Some "cc {file} -o out") (Some "./out")
              (Some (Num 3000)) JsMap.empty [] in
  Session.execute (Session.user "c") initial_world =
    ([OnNext diagnostics; OnComplete], resolved,
     mkWorld [mkSpawn "./out" (Some "/tmp/job") (Some (Num 3000))
                      (Some ["cc {file} -o out"])] []) /\
  length (spawned (snd (Session.compile resolved initial_world))) = 1%nat.
Proof.
  refine (compile_failure_is_final
            Session.Builder Session.newBuilder Session.builderPut Session.builderBuild
            Session.machine Session.registry
            (Session.user "c") initial_world
            (mkToolchain (Some "/tmp/job") (Some "cc {file} -o out") (Some "./out")
                         (Some (Num 3000)))
            (mkOutput (Some 1%Z) (Some "syntax error")
                      (Some (inject_Z 500000000 / 1000000)%Q))
            eq_refl eq_refl eq_refl _).
  discriminate.
Defined.

Lemma missing_run_command_outcomes_witness :
  Session.execute (Session.user "broken") initial_world =
    ([],
     mkConfigs "broken" (Some "/tmp/job") (Some "cc {file} -o out") None
               (Some (Num 3000)) JsMap.empty [],
     mkWorld [mkSpawn "" (Some "/tmp/job") (Some (Num 3000)) (Some ["cc {file} -o out"])]
             [CompilationError "runCommand not found."]).
Proof.
  exact (proj2 (missing_run_command_outcomes
                  Session.Builder Session.newBuilder Session.builderPut
                  Session.builderBuild Session.machine Session.registry
                  (Session.user "broken") initial_world
                  (mkToolchain (Some "/tmp/job") (Some "cc {file} -o out") None
                               (Some (Num 3000)))
                  eq_refl eq_refl) eq_refl).
Defined.

(** ** Further properties of [putVariable] *)

Lemma set_set_same (k v : string) (m : JsMap.t) :
  JsMap.set k v (JsMap.set k v m) = JsMap.set k v m.
Proof.
  induction m as [|[k' v'] rest IH]; simpl.
  - now rewrite String.eqb_refl.
  - destruct (k' =? k) eqn:E; simpl.
    + now rewrite String.eqb_refl.
    + now rewrite E, IH.
Qed.

Lemma length_set (k v : string) (m : JsMap.t) :
  (length (JsMap.set k v m) <= S (length m))%nat.
Proof.
  induction m as [|[k' v'] rest IH]; simpl; [lia|].
  destruct (k' =? k); simpl; lia.
Qed.

(** X11: two [putVariable] calls whose names trim to different strings can
    be made in either order: every lookup in the resulting maps agrees. *)
Theorem putVariable_commutes
    (a b : string) (va vb : VarValue) (c : ICompilerConfigs) (k : string) :
  JsString.trim a <> JsString.trim b ->
  JsMap.get k (variables (putVariable a va (putVariable b vb c))) =
  JsMap.get k (variables (putVariable b vb (putVariable a va c))).
Proof.
  intros Hdiff.
  destruct (string_dec (JsString.trim a) EmptyString) as [Ha|Ha].
  { now rewrite !(putVariable_empty_name a) by assumption. }
  destruct (string_dec (JsString.trim b) EmptyString) as [Hb|Hb].
  { now rewrite !(putVariable_empty_name b) by assumption. }
  rewrite !putVariable_variables by assumption.
  destruct (string_dec k (JsString.trim a)) as [->|Hka].
  - rewrite JsMapFacts.get_set_same.
    rewrite JsMapFacts.get_set_other by assumption.
    now rewrite JsMapFacts.get_set_same.
  - rewrite (JsMapFacts.get_set_other (JsString.trim a)) by assumption.
    destruct (string_dec k (JsString.trim b)) as [->|Hkb].
    + now rewrite !JsMapFacts.get_set_same.
    + rewrite !JsMapFacts.get_set_other by assumption. reflexivity.
Qed.

(** X12: a sequence of [putVariable] calls leaves alone every variable that
    none of the calls names: if no call's name trims to [k], looking up [k]
    gives what it gave before. *)
Theorem putVariables_frame
    (calls : list (string * VarValue)) (c : ICompilerConfigs) (k : string) :
  Forall (fun call => JsString.trim (fst call) <> k) calls ->
  JsMap.get k (variables (putVariables calls c)) = JsMap.get k (variables c).
Proof.
  unfold putVariables. revert c.
  induction calls as [|[name value] rest IH]; simpl; intros c Hcalls.
  - reflexivity.
  - inversion Hcalls as [|? ? Hname Hrest]; subst. simpl in Hname.
    rewrite IH by assumption.
    destruct (string_dec (JsString.trim name) EmptyString) as [He|Hne].
    + now rewrite putVariable_empty_name.
    + rewrite putVariable_variables by assumption.
      apply JsMapFacts.get_set_other. congruence.
Qed.

(** X13: [putVariable] never removes a variable: after any sequence of calls
    every key that was in the map is still there, and the map has grown by
    at most one entry per call. *)
Theorem putVariables_only_grows
    (calls : list (string * VarValue)) (c : ICompilerConfigs) :
  incl (JsMap.keys (variables c)) (JsMap.keys (variables (putVariables calls c))) /\
  (length (variables (putVariables calls c)) <= length (variables c) + length calls)%nat.
Proof.
  unfold putVariables. revert c.
  induction calls as [|[name value] rest IH]; simpl; intros c.
  - split; [apply incl_refl|lia].
  - destruct (IH (putVariable name value c)) as [Hkeys Hlen].
    destruct (string_dec (JsString.trim name) EmptyString) as [He|Hne].
    + rewrite (putVariable_empty_name name value c He) in *. split; [assumption|lia].
    + rewrite (putVariable_variables name value c Hne) in *. split.
      * intros k Hk. apply Hkeys. apply JsMapFacts.In_keys_set. now right.
      * pose proof (length_set (JsString.trim name) (valueToString value) (variables c)).
        lia.
Qed.

(** X14: [putVariable] does not see white space around the name, and making
    the same call twice is the same as making it once. *)
Theorem putVariable_name_normalised
    (name : string) (value : VarValue) (c : ICompilerConfigs) :
  putVariable name value c = putVariable (JsString.trim name) value c /\
  putVariable name value (putVariable name value c) = putVariable name value c.
Proof.
  split.
  - unfold putVariable. now rewrite JsStringFacts.trim_idempotent.
  - unfold putVariable.
    destruct (0 <? String.length (JsString.trim name))%nat; [|reflexivity].
    cbn [compilerName filePath compileCommand runCommand executionTimeout variables
         inputs].
    now rewrite set_set_same.
Qed.

Lemma dispatch_after_compile_witness :
  Session.compileAndRun
    (mkConfigs "broken" (Some "/tmp/job") (Some "cc {file} -o out") None
               (Some (Num 3000)) JsMap.empty [])
    initial_world =
    ([],
     mkWorld [mkSpawn "" (Some "/tmp/job") (Some (Num 3000)) (Some ["cc {file} -o out"])]
             [CompilationError "runCommand not found."]).
Proof.
  exact (proj2 (proj2 (proj2 (proj2
           (dispatch_after_compile
              Session.Builder Session.newBuilder Session.builderPut Session.builderBuild
              Session.machine)))
           (mkConfigs "broken" (Some "/tmp/job") (Some "cc {file} -o out") None
                      (Some (Num 3000)) JsMap.empty [])
           initial_world eq_refl eq_refl)).
Defined.

(** ** The further properties on concrete sessions *)

Lemma execute_load_failure_witness :
  Session.execute (Session.user "cobol") initial_world =
    ([OnError (ExternalError "unknown compiler")],
     mkConfigs "cobol" (Some "./") None None None JsMap.empty [],
     initial_world).
Proof.
  exact (execute_load_failure
           Session.Builder Session.newBuilder Session.builderPut Session.builderBuild
           Session.machine Session.registry
           (Session.user "cobol") initial_world (ExternalError "unknown compiler")
           eq_refl).
Defined.

Lemma execute_interpreted_witness :
  let c := onInputRequested ["5"; "6"]
             (putVariable "file" (VString "main.py") (Session.user "py")) in
  Session.execute c initial_world =
    ([OnNext (mkOutput (Some 1%Z) (Some "syntax error")
                       (Some (inject_Z 500000000 / 1000000)%Q));
      OnComplete],
     mkConfigs "py" (Some "/tmp/job") None (Some "interp {file}") (Some (Num 3000))
               [("file", "main.py")] ["5"; "6"],
     mkWorld [mkSpawn "interp main.py" (Some "/tmp/job") (Some (Num 3000))
                      (Some ["5"; "6"])] []).
Proof.
  exact (execute_interpreted
           Session.Builder Session.newBuilder Session.builderPut Session.builderBuild
           Session.machine Session.registry
           (onInputRequested ["5"; "6"]
              (putVariable "file" (VString "main.py") (Session.user "py")))
           initial_world
           (mkToolchain (Some "/tmp/job") None (Some "interp {file}") (Some (Num 3000)))
           (mkFinish 1 2 500000000) eq_refl eq_refl eq_refl eq_refl).
Defined.

Lemma execute_compiled_witness :
  let c := setExecutionTimeout (Num 250)
             (putVariable "file" (VString "main.c") (Session.user "c")) in
  execute Session.Builder Session.newBuilder Session.builderPut Session.builderBuild
          Session.healthy Session.registry c initial_world =
    ([OnNext (mkOutput (Some 0%Z) (Some "out:warn:./out")
                       (Some (inject_Z 2000000 / 1000000)%Q));
      OnComplete],
     mkConfigs "c" (Some "/tmp/job") (Some "cc {file} -o out") (Some "./out")
               (Some (Num 250)) [("file", "main.c")] [],
     mkWorld [mkSpawn "./out" (Some "/tmp/job") (Some (Num 250))
                      (Some ["cc {file} -o out"]);
              mkSpawn "./out" (Some "/tmp/job") (Some (Num 250)) None] []).
Proof.
  exact (execute_compiled
           Session.Builder Session.newBuilder Session.builderPut Session.builderBuild
           Session.healthy Session.registry
           (setExecutionTimeout (Num 250)
              (putVariable "file" (VString "main.c") (Session.user "c")))
           initial_world
           (mkToolchain (Some "/tmp/job") (Some "cc {file} -o out") (Some "./out")
                        (Some (Num 3000)))
           (mkFinish 0 1 2000000) (mkFinish 0 1 2000000)
           eq_refl eq_refl eq_refl eq_refl eq_refl eq_refl).
Defined.

Lemma execute_stalls_silently_witness :
  execute Session.Builder Session.newBuilder Session.builderPut Session.builderBuild
          Session.stalled Session.registry (Session.user "c") initial_world =
    ([],
     mkConfigs "c" (Some "/tmp/job") (Some "cc {file} -o out") (Some "./out")
               (Some (Num 3000)) JsMap.empty [],
     mkWorld [mkSpawn "./out" (Some "/tmp/job") (Some (Num 3000))
                      (Some ["cc {file} -o out"])] []).
Proof.
  exact (proj1 (proj2 (execute_stalls_silently
                         Session.Builder Session.newBuilder Session.builderPut
                         Session.builderBuild Session.stalled Session.registry
                         (Session.user "c") initial_world
                         (mkToolchain (Some "/tmp/job") (Some "cc {file} -o out")
                                      (Some "./out") (Some (Num 3000)))
                         eq_refl eq_refl)) eq_refl eq_refl).
Defined.

Lemma execute_spawns_witness :
  exists started : list Spawn,
    spawned (snd (Session.execute (Session.user "c") initial_world)) = started /\
    (length started <= 2)%nat /\
    Forall (fun p => sp_command p = "./out" /\
                     sp_currentDirectory p = Some "/tmp/job" /\
                     sp_executionTimeout p = Some (Num 3000)) started.
Proof.
  destruct (execute_spawns
              Session.Builder Session.newBuilder Session.builderPut Session.builderBuild
              Session.machine Session.registry (Session.user "c") initial_world
              (mkToolchain (Some "/tmp/job") (Some "cc {file} -o out") (Some "./out")
                           (Some (Num 3000)))
              eq_refl) as (started & Heq & Hlen & _ & Hall).
  exists started. split; [exact Heq|]. split; [exact Hlen|exact Hall].
Defined.

Lemma took_below_one_second_witness :
  let c := mkConfigs "py" (Some "/tmp/job") None (Some "interp {file}")
                     (Some (Num 3000)) [("file", "main.py")] [] in
  exists (o : ICompilerOutput) (q : Q),
    fst (Session.run c ["5"] initial_world) = [OnNext o; OnComplete] /\
    took o = Some q /\ (0 <= q)%Q /\ (q < 1000)%Q.
Proof.
  refine (took_below_one_second
            Session.Builder Session.newBuilder Session.builderPut Session.builderBuild
            Session.machine
            (mkConfigs "py" (Some "/tmp/job") None (Some "interp {file}")
                       (Some (Num 3000)) [("file", "main.py")] [])
            ["5"] initial_world (mkFinish 1 2 500000000) eq_refl eq_refl _).
  split; [discriminate|reflexivity].
Defined.

Lemma putVariable_commutes_witness :
  JsMap.get "b"
    (variables (putVariable " a" (VNumber (Num 1))
                  (putVariable "b " (VBoolean true) (Session.user "c")))) =
  JsMap.get "b"
    (variables (putVariable "b " (VBoolean true)
                  (putVariable " a" (VNumber (Num 1)) (Session.user "c")))).
Proof.
  refine (putVariable_commutes " a" "b " (VNumber (Num 1)) (VBoolean true)
            (Session.user "c") "b" _).
  discriminate.
Defined.

Lemma putVariables_frame_witness :
  JsMap.get "file"
    (variables (putVariables [(" n ", VNumber (Num 5)); ("  ", VString "x")]
                  (putVariable "file" (VString "main.c") (Session.user "c")))) =
  JsMap.get "file" (variables (putVariable "file" (VString "main.c") (Session.user "c"))).
Proof.
  refine (putVariables_frame [(" n ", VNumber (Num 5)); ("  ", VString "x")]
            (putVariable "file" (VString "main.c") (Session.user "c")) "file" _).
  repeat constructor; discriminate.
Defined.
